(** * IoTzy backend: the sensing loop, the two stores and the inbound handler

    A shallow embedding of [src/backend/main.py].  The module is a FastAPI
    process with three actors that share two lock-guarded globals:

    - [camera_worker], the background loop that reads frames, publishes
      brightness and presence on change and drives the lamp by hysteresis;
    - [mqtt_on_message], the bus callback that stores inbound temperatures;
    - [get_config] and [update_config], the HTTP handlers of the Config Store.

    Python floats are IEEE binary64 numbers, so brightness, thresholds and
    temperatures are primitive floats and [<], [>], [!=] are the primitive
    comparisons.  What the process keeps in globals (and what it sends to the
    broker and to the configuration file) is gathered in one record, [World],
    which every operation threads explicitly.

    The broker client is paho's [Client]: its [publish] raises [ValueError]
    on a topic that is empty, holds a wildcard or is too long.  Neither
    [publish] nor [camera_worker] catches anything, so such a topic ends the
    iteration where it stands, and the worker thread with it. *)

From Stdlib Require Import ZArith List Ascii String Bool Lia Floats.
Import ListNotations.

#[local] Set Warnings "-inexact-float,-register-all".
#[local] Open Scope string_scope.
#[local] Open Scope Z_scope.

(** ** Python values *)

(** What [json.loads] returns: [None], [bool], [int], [float], [str], [list]
    and [dict] (a dict as its items, looked up from the left). *)
Inductive json : Type :=
| JNull
| JBool (b : bool)
| JInt (z : Z)
| JFloat (f : float)
| JStr (s : string)
| JArr (items : list json)
| JObj (items : list (string * json)).

(** The exceptions that the modelled code can raise and does not catch. *)
Inductive exn : Type :=
| UnicodeDecodeError
| AttributeError
| ValueError
| TypeError
| OverflowError
| UnboundLocalError.

(** A call either returns or raises. *)
Inductive outcome (A : Type) : Type :=
| Returned (a : A)
| Raised (e : exn).
Arguments Returned {A} a.
Arguments Raised {A} e.

(** [d.get(key)]: the value bound to [key], [None] when there is none. *)
Fixpoint dict_get (d : list (string * json)) (key : string) : json :=
  match d with
  | [] => JNull
  | (k, v) :: rest => if String.eqb k key then v else dict_get rest key
  end.

(** Truth value of an object, as [or] tests it. *)
Definition truthy (v : json) : bool :=
  match v with
  | JNull => false
  | JBool b => b
  | JInt z => negb (z =? 0)
  | JFloat f => negb (f =? 0)%float
  | JStr s => negb (String.eqb s EmptyString)
  | JArr items => match items with [] => false | _ => true end
  | JObj items => match items with [] => false | _ => true end
  end.

(** [x or y]: [x] when it is true, [y] otherwise. *)
Definition py_or (x y : json) : json := if truthy x then x else y.

(** [float(n)] for an [int]: the nearest binary64 number, ties to even, and
    [OverflowError] when that would be infinite. *)
Definition float_of_int (n : Z) : outcome float :=
  match binary_normalize prec emax n 0 false with
  | S754_infinity _ => Raised OverflowError
  | sf => Returned (SF2Prim sf)
  end.

Section Builtins.

(** [float(s)] for a [str] is the interpreter's decimal parser; it is taken
    as given: [None] stands for the [ValueError] it raises on a string that
    is not a number. *)
Variable float_of_str : string -> option float.

(** [float(x)] on a value that [json.loads] produced. *)
Definition py_float (v : json) : outcome float :=
  match v with
  | JFloat f => Returned f
  | JInt n => float_of_int n
  | JBool b => Returned (if b then 1%float else 0%float)
  | JStr s => match float_of_str s with
              | Some f => Returned f
              | None => Raised ValueError
              end
  | JNull | JArr _ | JObj _ => Raised TypeError
  end.

End Builtins.

(** ** Configuration and runtime state *)

Module Topics.
Record t : Type := mk {
  temperature : string;
  presence : string;
  brightness : string;
  lamp_control : string
}.
Definition default : t :=
  mk "iotzy/sensor/temperature" "iotzy/sensor/presence"
     "iotzy/sensor/brightness" "iotzy/device/lamp/control".
End Topics.

Module Automation.
Record t : Type := mk {
  lamp_enabled : bool;
  lamp_on_threshold : float;
  lamp_off_threshold : float
}.
Definition default : t := mk true 0.35%float 0.5%float.
End Automation.

Module BackendConfig.
Record t : Type := mk {
  mqtt_host : string;
  mqtt_port : Z;
  mqtt_use_ssl : bool;
  mqtt_username : string;
  mqtt_password : string;
  camera_index : Z;
  topics : Topics.t;
  automation : Automation.t
}.
Definition default : t :=
  mk "broker.hivemq.com" 1883 false EmptyString EmptyString 0 Topics.default
    Automation.default.
End BackendConfig.

(** The body of a reconfiguration request: every field is optional. *)
Module ConfigPayload.
Record t : Type := mk {
  mqtt_host : option string;
  mqtt_port : option Z;
  mqtt_use_ssl : option bool;
  mqtt_username : option string;
  mqtt_password : option string;
  camera_index : option Z;
  topics : option Topics.t;
  automation : option Automation.t
}.
End ConfigPayload.

Module SensorState.
Record t : Type := mk {
  temperature : option float;
  presence : bool;
  brightness : option float;
  last_seen : option string;
  lamp_state : Z
}.
Definition default : t := mk None false None None 0.
End SensorState.

(** ** Outbound payloads *)

(** The values of the dicts handed to [publish].  [PRound x n] is the float
    [round(x, n)]: the builtin's decimal rounding is not interpreted. *)
Inductive pyval : Type :=
| PInt (z : Z)
| PStr (s : string)
| PRound (x : float) (ndigits : Z).

Definition payload : Type := list (string * pyval).

(** A message as the broker client receives it: the topic and the dict whose
    [json.dumps] text is sent. *)
Definition message : Type := (string * payload)%type.

Inductive MqttClient : Type := Client (client_id : string).

(** ** The process *)

(** The module's globals ([config], [state], [mqtt_client]) and the two
    things outside the process that it writes: the messages given to the
    broker client, oldest first, and the configuration file. *)
Record World : Type := mkWorld {
  config : BackendConfig.t;
  state : SensorState.t;
  mqtt_client : option MqttClient;
  broker : list message;
  config_file : option json
}.

Definition with_config (c : BackendConfig.t) (w : World) : World :=
  mkWorld c (state w) (mqtt_client w) (broker w) (config_file w).

Definition with_state (s : SensorState.t) (w : World) : World :=
  mkWorld (config w) s (mqtt_client w) (broker w) (config_file w).

Definition with_broker (b : list message) (w : World) : World :=
  mkWorld (config w) (state w) (mqtt_client w) b (config_file w).

Definition with_config_file (f : option json) (w : World) : World :=
  mkWorld (config w) (state w) (mqtt_client w) (broker w) f.

(** ** The inbound temperature handler *)

(** [msg.payload] is a byte string.  The handler only looks at it through
    [json.loads(msg.payload.decode())], which has three outcomes: the bytes
    are not UTF-8 and [decode] raises [UnicodeDecodeError]; the text is not
    JSON and [json.loads] raises [json.JSONDecodeError]; or a value comes
    back. *)
Inductive wire : Type :=
| NotUtf8
| NotJson
| Json (v : json).

Record MQTTMessage : Type := mkMessage {
  topic : string;
  msg_payload : wire
}.

Definition set_temperature (f : float) (w : World) : World :=
  let s := state w in
  with_state
    (SensorState.mk (Some f) (SensorState.presence s) (SensorState.brightness s)
       (SensorState.last_seen s) (SensorState.lamp_state s)) w.

Section Handler.

Variable float_of_str : string -> option float.

(** [mqtt_on_message]: messages on another topic are ignored; the only
    exception caught is [json.JSONDecodeError]. *)
Definition mqtt_on_message (msg : MQTTMessage) (w : World)
  : World * outcome unit :=
  let topic_temp := Topics.temperature (BackendConfig.topics (config w)) in
  if negb (String.eqb (topic msg) topic_temp) then (w, Returned tt)
  else
    match msg_payload msg with
    | NotUtf8 => (w, Raised UnicodeDecodeError)
    | NotJson => (w, Returned tt)
    | Json (JObj d) =>
        let temp :=
          py_or (dict_get d "value")
            (py_or (dict_get d "temperature") (dict_get d "temp")) in
        match temp with
        | JNull => (w, Returned tt)
        | _ =>
            match py_float float_of_str temp with
            | Returned f => (set_temperature f w, Returned tt)
            | Raised e => (w, Raised e)
            end
        end
    | Json _ => (w, Raised AttributeError)
    end.

End Handler.

(** ** The sensing and automation loop *)

(** What the broker client checks before it takes a message ([publish] of
    paho's [Client]): the topic is not empty, holds neither wildcard and is at
    most 65535 bytes long (a string here is the bytes of the UTF-8 text).
    On any other topic it raises [ValueError]. *)
Fixpoint has_wildcard (topic : string) : bool :=
  match topic with
  | EmptyString => false
  | String ch rest =>
      Ascii.eqb ch "+"%char || Ascii.eqb ch "#"%char || has_wildcard rest
  end.

Definition valid_topic (topic : string) : bool :=
  negb (String.eqb topic EmptyString)
  && negb (has_wildcard topic)
  && (N.of_nat (String.length topic) <=? 65535)%N.

(** [publish]: nothing happens while there is no client; with one, the
    message is handed to it, and its [ValueError] is not caught. *)
Definition publish (topic : string) (p : payload) (w : World)
  : World * outcome unit :=
  match mqtt_client w with
  | None => (w, Returned tt)
  | Some _ =>
      if valid_topic topic
      then (with_broker (broker w ++ [(topic, p)]) w, Returned tt)
      else (w, Raised ValueError)
  end.

(** The three locals that [camera_worker] keeps across iterations. *)
Record Locals : Type := mkLocals {
  last_presence : option bool;
  last_brightness : option float;
  last_lamp_action : string
}.

Definition initial_locals : Locals := mkLocals None None "off".

(** [brightness != last_brightness]: a float never equals [None]. *)
Definition differs_float (x : float) (last : option float) : bool :=
  match last with
  | None => true
  | Some y => negb (x =? y)%float
  end.

(** [presence != last_presence]. *)
Definition differs_bool (x : bool) (last : option bool) : bool :=
  match last with
  | None => true
  | Some y => negb (Bool.eqb x y)
  end.

Definition brightness_payload (brightness : float) : payload :=
  [("value", PRound brightness 3)].

Definition presence_payload (presence : bool) : payload :=
  [("value", PInt (if presence then 1 else 0))].

Definition lamp_payload (lamp : Z) : payload :=
  [("state", PInt lamp); ("source", PStr "camera")].

(** The blocks of the loop body work on the locals and the globals.  Nothing
    in [camera_worker] catches an exception, so a block that raises stops
    where it is: what it did before stays done, what comes after is not
    run. *)
Definition block : Type := ((Locals * World) * outcome unit)%type.

(** Lines 164-166: the local is assigned after [publish] has returned. *)
Definition gate_brightness (topics : Topics.t) (brightness : float)
  (lw : Locals * World) : block :=
  let (l, w) := lw in
  if differs_float brightness (last_brightness l) then
    match publish (Topics.brightness topics) (brightness_payload brightness) w with
    | (w', Returned _) =>
        ((mkLocals (last_presence l) (Some brightness) (last_lamp_action l), w'),
         Returned tt)
    | (w', Raised e) => ((l, w'), Raised e)
    end
  else ((l, w), Returned tt).

(** Lines 167-169. *)
Definition gate_presence (topics : Topics.t) (presence : bool)
  (lw : Locals * World) : block :=
  let (l, w) := lw in
  if differs_bool presence (last_presence l) then
    match publish (Topics.presence topics) (presence_payload presence) w with
    | (w', Returned _) =>
        ((mkLocals (Some presence) (last_brightness l) (last_lamp_action l), w'),
         Returned tt)
    | (w', Raised e) => ((l, w'), Raised e)
    end
  else ((l, w), Returned tt).

(** Lines 170-173: the three sensed fields, under [state_lock]. *)
Definition update_sensed (brightness : float) (presence : bool) (now : string)
  (w : World) : World :=
  let s := state w in
  with_state
    (SensorState.mk (SensorState.temperature s) presence (Some brightness)
       (Some now) (SensorState.lamp_state s)) w.

Definition set_lamp_state (lamp : Z) (w : World) : World :=
  let s := state w in
  with_state
    (SensorState.mk (SensorState.temperature s) (SensorState.presence s)
       (SensorState.brightness s) (SensorState.last_seen s) lamp) w.

Definition set_last_lamp_action (a : string) (l : Locals) : Locals :=
  mkLocals (last_presence l) (last_brightness l) a.

(** Lines 174-184: the hysteresis policy.  In either branch the command is
    published first, then the local and the lamp field are set. *)
Definition lamp_automation (automation : Automation.t) (topics : Topics.t)
  (brightness : float) (lw : Locals * World) : block :=
  let (l, w) := lw in
  if Automation.lamp_enabled automation then
    if (brightness <? Automation.lamp_on_threshold automation)%float
       && negb (String.eqb (last_lamp_action l) "on")
    then
      match publish (Topics.lamp_control topics) (lamp_payload 1) w with
      | (w', Returned _) =>
          ((set_last_lamp_action "on" l, set_lamp_state 1 w'), Returned tt)
      | (w', Raised e) => ((l, w'), Raised e)
      end
    else if (Automation.lamp_off_threshold automation <? brightness)%float
            && negb (String.eqb (last_lamp_action l) "off")
    then
      match publish (Topics.lamp_control topics) (lamp_payload 0) w with
      | (w', Returned _) =>
          ((set_last_lamp_action "off" l, set_lamp_state 0 w'), Returned tt)
      | (w', Raised e) => ((l, w'), Raised e)
      end
    else ((l, w), Returned tt)
  else ((l, w), Returned tt).

(** Lines 164-173: the two change gates, then the State Store. *)
Definition sense (topics : Topics.t) (brightness : float) (presence : bool)
  (now : string) (lw : Locals * World) : block :=
  match gate_brightness topics brightness lw with
  | (lw1, Returned _) =>
      match gate_presence topics presence lw1 with
      | (lw2, Returned _) =>
          ((fst lw2, update_sensed brightness presence now (snd lw2)),
           Returned tt)
      | (lw2, Raised e) => (lw2, Raised e)
      end
  | (lw1, Raised e) => (lw1, Raised e)
  end.

(** One pass through the body of the inner loop after a frame was read
    (lines 164-184), on the brightness and presence computed from it and the
    wall-clock text that [time.strftime] returns.  The pause at the end of
    the body has no effect on what is modelled. *)
Definition frame_body (automation : Automation.t) (topics : Topics.t)
  (brightness : float) (presence : bool) (now : string)
  (lw : Locals * World) : block :=
  match sense topics brightness presence now lw with
  | (mid, Returned _) => lamp_automation automation topics brightness mid
  | (mid, Raised e) => (mid, Raised e)
  end.

(** The locals and the globals that the pass leaves behind, whether it ran to
    its end or an exception cut it short. *)
Definition frame_iteration (automation : Automation.t) (topics : Topics.t)
  (brightness : float) (presence : bool) (now : string)
  (lw : Locals * World) : Locals * World :=
  fst (frame_body automation topics brightness presence now lw).

(** A run of frame iterations under one configuration snapshot: each sample
    is the brightness, the presence and the clock text of one frame.  The
    run ends with the samples, or with the iteration that raises: the thread
    is gone then and the later samples are not looked at. *)
Definition sample : Type := (float * bool * string)%type.

Fixpoint run_frames (automation : Automation.t) (topics : Topics.t)
  (samples : list sample) (lw : Locals * World) : Locals * World :=
  match samples with
  | [] => lw
  | (brightness, presence, now) :: rest =>
      match frame_body automation topics brightness presence now lw with
      | (lw', Returned _) => run_frames automation topics rest lw'
      | (lw', Raised _) => lw'
      end
  end.

(** What one step handed to the broker client: the messages that [after]
    holds beyond those of [before]. *)
Definition published (before after : World) : list message :=
  skipn (List.length (broker before)) (broker after).

(** The messages of each iteration of [run_frames], in order. *)
Fixpoint trace_frames (automation : Automation.t) (topics : Topics.t)
  (samples : list sample) (lw : Locals * World) : list (list message) :=
  match samples with
  | [] => []
  | (brightness, presence, now) :: rest =>
      match frame_body automation topics brightness presence now lw with
      | (lw', Returned _) =>
          published (snd lw) (snd lw') :: trace_frames automation topics rest lw'
      | (lw', Raised _) => [published (snd lw) (snd lw')]
      end
  end.



(** The lamp state that a message commands, when its payload is a lamp
    command ([{"state": s, "source": "camera"}] is the only payload whose
    first key is [state]). *)
Definition lamp_command (m : message) : option Z :=
  match snd m with
  | (k, PInt s) :: _ => if String.eqb k "state" then Some s else None
  | _ => None
  end.

Definition is_lamp_command (m : message) : bool :=
  match lamp_command m with Some _ => true | None => false end.


(** A brightness event is the only payload that carries a rounded float. *)
Definition is_brightness_event (m : message) : bool :=
  match snd m with
  | (_, PRound _ _) :: _ => true
  | _ => false
  end.


(** The lamp states commanded by a list of messages, oldest first. *)
Fixpoint lamp_commands (ms : list message) : list Z :=
  match ms with
  | [] => []
  | m :: rest =>
      match lamp_command m with
      | Some s => s :: lamp_commands rest
      | None => lamp_commands rest
      end
  end.


(** *** The two nested loops *)

(** Where [camera_worker] stands between two steps: at the top of
    [while True], at the test of [while cap.isOpened()] with the three
    values that the top of the outer loop read from [config], or nowhere any
    more because an exception left both loops and ended the thread. *)
Inductive Phase : Type :=
| Acquiring
| Capturing (camera_index : Z) (automation : Automation.t) (topics : Topics.t)
| Ended (e : exn).

Record Worker : Type := mkWorker {
  phase : Phase;
  locals : Locals
}.

Definition initial_worker : Worker := mkWorker Acquiring initial_locals.

Record Rect : Type := mkRect { rect_x : Z; rect_y : Z; rect_w : Z; rect_h : Z }.

(** What the capture device answers.  At the top of the outer loop the
    device opens or does not; in the inner loop the capture turns out closed,
    the read fails, or a frame arrives, of which the loop uses the mean of the
    grey image, the rectangles of the people detector and the clock. *)
Inductive CameraEvent : Type :=
| OpenFailed
| Opened
| CaptureClosed
| ReadFailed
| Frame (gray_mean : float) (rects : list Rect) (now : string).

(** Line 161 and line 163. *)
Definition brightness_of (gray_mean : float) : float := (gray_mean / 255)%float.
Definition presence_of (rects : list Rect) : bool := (0 <? List.length rects)%nat.

(** One iteration of whichever loop the worker is in.  [None]: the event is
    not one that the device can give at that point, or the thread has ended
    and takes no step. *)
Definition camera_worker_step (ev : CameraEvent) (k : Worker) (w : World)
  : option (Worker * World) :=
  match phase k, ev with
  | Acquiring, OpenFailed => Some (k, w)
  | Acquiring, Opened =>
      Some (mkWorker
              (Capturing (BackendConfig.camera_index (config w))
                 (BackendConfig.automation (config w))
                 (BackendConfig.topics (config w)))
              (locals k), w)
  | Capturing _ _ _, CaptureClosed => Some (mkWorker Acquiring (locals k), w)
  | Capturing _ _ _, ReadFailed => Some (mkWorker Acquiring (locals k), w)
  | Capturing ci automation topics, Frame gray_mean rects now =>
      match frame_body automation topics (brightness_of gray_mean)
              (presence_of rects) now (locals k, w) with
      | (lw, Returned _) =>
          Some (mkWorker (Capturing ci automation topics) (fst lw), snd lw)
      | (lw, Raised e) => Some (mkWorker (Ended e) (fst lw), snd lw)
      end
  | _, _ => None
  end.

(** The worker next to the rest of the process: between two steps of the
    worker another thread may have bound the global [config] to a new object
    (the worker reads the global under [config_lock], so such a change falls
    between two of its steps).  This is what a reconfiguration is to the
    worker, whoever performs it. *)
Inductive Event : Type :=
| Camera (ev : CameraEvent)
| ConfigReplaced (c : BackendConfig.t).

Definition step (e : Event) (kw : Worker * World) : option (Worker * World) :=
  match e with
  | Camera ev => camera_worker_step ev (fst kw) (snd kw)
  | ConfigReplaced c => Some (fst kw, with_config c (snd kw))
  end.

Fixpoint run (es : list Event) (kw : Worker * World) : option (Worker * World) :=
  match es with
  | [] => Some kw
  | e :: rest =>
      match step e kw with
      | Some kw' => run rest kw'
      | None => None
      end
  end.

(** The snapshot that the worker is using, if it is in a capture session. *)
Definition snapshot (k : Worker) : option (Z * Automation.t * Topics.t) :=
  match phase k with
  | Capturing ci automation topics => Some (ci, automation, topics)
  | _ => None
  end.

(** The snapshot that the Config Store would give now. *)
Definition current (w : World) : Z * Automation.t * Topics.t :=
  (BackendConfig.camera_index (config w),
   BackendConfig.automation (config w),
   BackendConfig.topics (config w)).

(** ** The Config Store handlers *)

(** [dataclasses.asdict]: the fields in declaration order, nested
    dataclasses as dicts of their own. *)
Definition asdict_topics (t : Topics.t) : json :=
  JObj [("temperature", JStr (Topics.temperature t));
        ("presence", JStr (Topics.presence t));
        ("brightness", JStr (Topics.brightness t));
        ("lamp_control", JStr (Topics.lamp_control t))].

Definition asdict_automation (a : Automation.t) : json :=
  JObj [("lamp_enabled", JBool (Automation.lamp_enabled a));
        ("lamp_on_threshold", JFloat (Automation.lamp_on_threshold a));
        ("lamp_off_threshold", JFloat (Automation.lamp_off_threshold a))].

Definition asdict (c : BackendConfig.t) : json :=
  JObj [("mqtt_host", JStr (BackendConfig.mqtt_host c));
        ("mqtt_port", JInt (BackendConfig.mqtt_port c));
        ("mqtt_use_ssl", JBool (BackendConfig.mqtt_use_ssl c));
        ("mqtt_username", JStr (BackendConfig.mqtt_username c));
        ("mqtt_password", JStr (BackendConfig.mqtt_password c));
        ("camera_index", JInt (BackendConfig.camera_index c));
        ("topics", asdict_topics (BackendConfig.topics c));
        ("automation", asdict_automation (BackendConfig.automation c))].

(** A [BackendConfig] object as a handler has it in hand.  The dataclass
    does not convert what its constructor or an assignment gives it, so each
    of the two nested fields holds an instance of its class or a plain dict
    with the same entries.  [fields] is what the object holds, whichever way;
    the two tags say which way. *)
Inductive held : Type :=
| AsInstance
| AsDict.

Record ConfigObject : Type := mkObject {
  fields : BackendConfig.t;
  topics_held : held;
  automation_held : held
}.

(** [asdict] of such an object: a nested instance becomes the dict of its
    fields and a nested dict is copied, so the tags do not show. *)
Definition asdict_object (o : ConfigObject) : json := asdict (fields o).

(** [BackendConfig( **asdict(c))]: a new object with the entries of
    [asdict(c)] as its fields; the two nested entries are the dicts that
    [asdict] made. *)
Definition rebuild (c : ConfigObject) : ConfigObject :=
  mkObject
    (BackendConfig.mk (BackendConfig.mqtt_host (fields c))
       (BackendConfig.mqtt_port (fields c))
       (BackendConfig.mqtt_use_ssl (fields c))
       (BackendConfig.mqtt_username (fields c))
       (BackendConfig.mqtt_password (fields c))
       (BackendConfig.camera_index (fields c))
       (BackendConfig.topics (fields c)) (BackendConfig.automation (fields c)))
    AsDict AsDict.

(** [if payload.x is not None: updated.x = payload.x]. *)
Definition if_given {A : Type} (given : option A) (old : A) : A :=
  match given with
  | Some a => a
  | None => old
  end.

Definition patch_mqtt_host (p : ConfigPayload.t) (u : BackendConfig.t) :=
  BackendConfig.mk (if_given (ConfigPayload.mqtt_host p) (BackendConfig.mqtt_host u))
    (BackendConfig.mqtt_port u) (BackendConfig.mqtt_use_ssl u)
    (BackendConfig.mqtt_username u) (BackendConfig.mqtt_password u)
    (BackendConfig.camera_index u) (BackendConfig.topics u)
    (BackendConfig.automation u).

Definition patch_mqtt_port (p : ConfigPayload.t) (u : BackendConfig.t) :=
  BackendConfig.mk (BackendConfig.mqtt_host u)
    (if_given (ConfigPayload.mqtt_port p) (BackendConfig.mqtt_port u))
    (BackendConfig.mqtt_use_ssl u)
    (BackendConfig.mqtt_username u) (BackendConfig.mqtt_password u)
    (BackendConfig.camera_index u) (BackendConfig.topics u)
    (BackendConfig.automation u).

Definition patch_mqtt_use_ssl (p : ConfigPayload.t) (u : BackendConfig.t) :=
  BackendConfig.mk (BackendConfig.mqtt_host u) (BackendConfig.mqtt_port u)
    (if_given (ConfigPayload.mqtt_use_ssl p) (BackendConfig.mqtt_use_ssl u))
    (BackendConfig.mqtt_username u) (BackendConfig.mqtt_password u)
    (BackendConfig.camera_index u) (BackendConfig.topics u)
    (BackendConfig.automation u).

Definition patch_mqtt_username (p : ConfigPayload.t) (u : BackendConfig.t) :=
  BackendConfig.mk (BackendConfig.mqtt_host u) (BackendConfig.mqtt_port u)
    (BackendConfig.mqtt_use_ssl u)
    (if_given (ConfigPayload.mqtt_username p) (BackendConfig.mqtt_username u))
    (BackendConfig.mqtt_password u)
    (BackendConfig.camera_index u) (BackendConfig.topics u)
    (BackendConfig.automation u).

Definition patch_mqtt_password (p : ConfigPayload.t) (u : BackendConfig.t) :=
  BackendConfig.mk (BackendConfig.mqtt_host u) (BackendConfig.mqtt_port u)
    (BackendConfig.mqtt_use_ssl u) (BackendConfig.mqtt_username u)
    (if_given (ConfigPayload.mqtt_password p) (BackendConfig.mqtt_password u))
    (BackendConfig.camera_index u) (BackendConfig.topics u)
    (BackendConfig.automation u).

Definition patch_camera_index (p : ConfigPayload.t) (u : BackendConfig.t) :=
  BackendConfig.mk (BackendConfig.mqtt_host u) (BackendConfig.mqtt_port u)
    (BackendConfig.mqtt_use_ssl u) (BackendConfig.mqtt_username u)
    (BackendConfig.mqtt_password u)
    (if_given (ConfigPayload.camera_index p) (BackendConfig.camera_index u))
    (BackendConfig.topics u) (BackendConfig.automation u).

Definition patch_topics (p : ConfigPayload.t) (u : BackendConfig.t) :=
  BackendConfig.mk (BackendConfig.mqtt_host u) (BackendConfig.mqtt_port u)
    (BackendConfig.mqtt_use_ssl u) (BackendConfig.mqtt_username u)
    (BackendConfig.mqtt_password u) (BackendConfig.camera_index u)
    (if_given (ConfigPayload.topics p) (BackendConfig.topics u))
    (BackendConfig.automation u).

Definition patch_automation (p : ConfigPayload.t) (u : BackendConfig.t) :=
  BackendConfig.mk (BackendConfig.mqtt_host u) (BackendConfig.mqtt_port u)
    (BackendConfig.mqtt_use_ssl u) (BackendConfig.mqtt_username u)
    (BackendConfig.mqtt_password u) (BackendConfig.camera_index u)
    (BackendConfig.topics u)
    (if_given (ConfigPayload.automation p) (BackendConfig.automation u)).

(** Lines 213-228, the eight assignments in their order, on what the object
    holds. *)
Definition apply_patch (p : ConfigPayload.t) (u : BackendConfig.t)
  : BackendConfig.t :=
  patch_automation p (patch_topics p (patch_camera_index p
    (patch_mqtt_password p (patch_mqtt_username p (patch_mqtt_use_ssl p
      (patch_mqtt_port p (patch_mqtt_host p u))))))).

(** *** Handlers as instruction lists

    A handler is the list of its statements, so that the same text can be
    run alone and interleaved with other requests.  A name that a function
    assigns without declaring it [global] is a local of that function, unbound
    until the assignment runs: [update_config] assigns [config] (line 230) and
    [updated], and has no [global] statement, so both live in its frame and
    reading either while unbound raises [UnboundLocalError].  [get_config] only
    reads [config], which is therefore the global. *)
Record CallFrame : Type := mkCallFrame {
  local_config : option ConfigObject;
  updated : option ConfigObject;
  value : option json
}.

Definition entry : CallFrame := mkCallFrame None None None.

Inductive Instr : Type :=
| Acquire
| Release
| Stmt (f : CallFrame -> World -> outcome (CallFrame * World))
| Return (f : CallFrame -> World -> outcome json).

(** Reading a local of the frame. *)
Definition load {A B : Type} (slot : option A) (k : A -> outcome B) : outcome B :=
  match slot with
  | Some a => k a
  | None => Raised UnboundLocalError
  end.

(** Line 212: [updated = BackendConfig( **asdict(config))]. *)
Definition copy_config (fr : CallFrame) (w : World) : outcome (CallFrame * World) :=
  load (local_config fr) (fun c =>
    Returned (mkCallFrame (local_config fr) (Some (rebuild c)) (value fr), w)).

(** One of the statements of lines 213-228, on the local [updated]. *)
Definition on_updated (g : ConfigObject -> ConfigObject)
  (fr : CallFrame) (w : World) : outcome (CallFrame * World) :=
  load (updated fr) (fun u =>
    Returned (mkCallFrame (local_config fr) (Some (g u)) (value fr), w)).

(** An assignment to one of the six plain fields (lines 213-224). *)
Definition assign (g : BackendConfig.t -> BackendConfig.t) (u : ConfigObject)
  : ConfigObject :=
  mkObject (g (fields u)) (topics_held u) (automation_held u).

(** Lines 225-228: a group that the request names is the instance that the
    request carries. *)
Definition assign_topics (p : ConfigPayload.t) (u : ConfigObject) : ConfigObject :=
  mkObject (patch_topics p (fields u))
    (match ConfigPayload.topics p with
     | Some _ => AsInstance
     | None => topics_held u
     end)
    (automation_held u).

Definition assign_automation (p : ConfigPayload.t) (u : ConfigObject)
  : ConfigObject :=
  mkObject (patch_automation p (fields u)) (topics_held u)
    (match ConfigPayload.automation p with
     | Some _ => AsInstance
     | None => automation_held u
     end).

(** [save_config]: the file receives the text of [asdict(new_config)]. *)
Definition save_config (new_config : BackendConfig.t) (w : World) : World :=
  with_config_file (Some (asdict new_config)) w.

(** Line 229: [save_config] looks at its argument through [asdict] only. *)
Definition save_updated (fr : CallFrame) (w : World) : outcome (CallFrame * World) :=
  load (updated fr) (fun u => Returned (fr, save_config (fields u) w)).

(** Line 230: [config = updated], an assignment to the local. *)
Definition bind_config (fr : CallFrame) (w : World) : outcome (CallFrame * World) :=
  load (updated fr) (fun u =>
    Returned (mkCallFrame (Some u) (updated fr) (value fr), w)).

(** Line 231. *)
Definition update_response (fr : CallFrame) (w : World) : outcome json :=
  load (local_config fr) (fun c =>
    Returned (JObj [("status", JStr "updated"); ("config", asdict_object c)])).

Definition update_config_code (p : ConfigPayload.t) : list Instr :=
  [ Acquire;
    Stmt copy_config;
    Stmt (on_updated (assign (patch_mqtt_host p)));
    Stmt (on_updated (assign (patch_mqtt_port p)));
    Stmt (on_updated (assign (patch_mqtt_use_ssl p)));
    Stmt (on_updated (assign (patch_mqtt_username p)));
    Stmt (on_updated (assign (patch_mqtt_password p)));
    Stmt (on_updated (assign (patch_camera_index p)));
    Stmt (on_updated (assign_topics p));
    Stmt (on_updated (assign_automation p));
    Stmt save_updated;
    Stmt bind_config;
    Release;
    Return update_response ].

(** Line 206: [asdict(config)] is evaluated inside the [with] block, on the
    global, and returned once the lock is released. *)
Definition eval_asdict (fr : CallFrame) (w : World) : outcome (CallFrame * World) :=
  Returned (mkCallFrame (local_config fr) (updated fr) (Some (asdict (config w))), w).

Definition return_value (fr : CallFrame) (w : World) : outcome json :=
  load (value fr) (fun v => Returned v).

Definition get_config_code : list Instr :=
  [ Acquire; Stmt eval_asdict; Release; Return return_value ].

(** A handler run with no other thread around: the lock is free, and an
    exception leaves the function (releasing the lock on its way). *)
Fixpoint exec (code : list Instr) (fr : CallFrame) (w : World) : World * outcome json :=
  match code with
  | [] => (w, Returned JNull)
  | Acquire :: rest => exec rest fr w
  | Release :: rest => exec rest fr w
  | Stmt f :: rest =>
      match f fr w with
      | Returned (fr', w') => exec rest fr' w'
      | Raised e => (w, Raised e)
      end
  | Return f :: _ => (w, f fr w)
  end.

Definition get_config (w : World) : World * outcome json :=
  exec get_config_code entry w.

Definition update_config (p : ConfigPayload.t) (w : World) : World * outcome json :=
  exec (update_config_code p) entry w.

(** *** Concurrent requests *)

(** A request being served: the statements still to run, its frame, whether
    it holds [config_lock], and its outcome once it has one. *)
Record Thread : Type := mkThread {
  code : list Instr;
  frame : CallFrame;
  holding : bool;
  result : option (outcome json)
}.

(** One statement of one thread, given whether [config_lock] is taken.  A
    finished thread and a thread waiting for the lock stay as they are; an
    exception ends the thread and, inside the [with] block, frees the lock. *)
Definition thread_step (t : Thread) (locked : bool) (w : World)
  : Thread * bool * World :=
  match result t with
  | Some _ => (t, locked, w)
  | None =>
      match code t with
      | [] => (mkThread [] (frame t) false (Some (Returned JNull)), locked, w)
      | Acquire :: rest =>
          if locked then (t, locked, w)
          else (mkThread rest (frame t) true None, true, w)
      | Release :: rest => (mkThread rest (frame t) false None, false, w)
      | Stmt f :: rest =>
          match f (frame t) w with
          | Returned (fr', w') => (mkThread rest fr' (holding t) None, locked, w')
          | Raised e =>
              (mkThread [] (frame t) false (Some (Raised e)),
               if holding t then false else locked, w)
          end
      | Return f :: _ =>
          (mkThread [] (frame t) false (Some (f (frame t) w)),
           if holding t then false else locked, w)
      end
  end.

Record System : Type := mkSystem {
  world : World;
  locked : bool;
  threads : list Thread
}.

Fixpoint replace_nth {A : Type} (i : nat) (a : A) (l : list A) : list A :=
  match l, i with
  | [], _ => []
  | _ :: rest, O => a :: rest
  | b :: rest, S j => b :: replace_nth j a rest
  end.

(** The scheduler lets thread [i] run one statement. *)
Definition sys_step (i : nat) (s : System) : System :=
  match nth_error (threads s) i with
  | None => s
  | Some t =>
      let '(t', l', w') := thread_step t (locked s) (world s) in
      mkSystem w' l' (replace_nth i t' (threads s))
  end.

(** An interleaving is the list of the threads chosen, step after step. *)
Fixpoint interleave (choices : list nat) (s : System) : System :=
  match choices with
  | [] => s
  | i :: rest => interleave rest (sys_step i s)
  end.

Inductive Request : Type :=
| GetConfig
| UpdateConfig (p : ConfigPayload.t).

Definition spawn (r : Request) : Thread :=
  mkThread
    (match r with
     | GetConfig => get_config_code
     | UpdateConfig p => update_config_code p
     end)
    entry false None.

Definition boot (w : World) (requests : list Request) : System :=
  mkSystem w false (map spawn requests).

(** ** One iteration seen from outside

    What an iteration that runs to its end does to the locals and what it
    hands to [publish] depend on the locals and the sample only; the three
    functions below say so, and [frame_iteration_view] proves that they
    describe [frame_iteration] when no [publish] raises. *)

(** The last commanded action after the policy block. *)
Definition next_action (a : Automation.t) (b : float) (last : string) : string :=
  if Automation.lamp_enabled a then
    if (b <? Automation.lamp_on_threshold a)%float && negb (String.eqb last "on")
    then "on"
    else if (Automation.lamp_off_threshold a <? b)%float
            && negb (String.eqb last "off")
    then "off"
    else last
  else last.

(** The locals after an iteration. *)
Definition advance (a : Automation.t) (b : float) (p : bool) (l : Locals) : Locals :=
  mkLocals
    (if differs_bool p (last_presence l) then Some p else last_presence l)
    (if differs_float b (last_brightness l) then Some b else last_brightness l)
    (next_action a b (last_lamp_action l)).

(** The lamp command of an iteration, if it has one. *)
Definition lamp_call (a : Automation.t) (t : Topics.t) (b : float) (last : string)
  : list message :=
  if Automation.lamp_enabled a then
    if (b <? Automation.lamp_on_threshold a)%float && negb (String.eqb last "on")
    then [(Topics.lamp_control t, lamp_payload 1)]
    else if (Automation.lamp_off_threshold a <? b)%float
            && negb (String.eqb last "off")
    then [(Topics.lamp_control t, lamp_payload 0)]
    else []
  else [].

(** The calls of [publish] in an iteration, in their order. *)
Definition calls (a : Automation.t) (t : Topics.t) (b : float) (p : bool)
  (l : Locals) : list message :=
  ((if differs_float b (last_brightness l)
    then [(Topics.brightness t, brightness_payload b)] else [])
   ++ (if differs_bool p (last_presence l)
       then [(Topics.presence t, presence_payload p)] else [])
   ++ lamp_call a t b (last_lamp_action l))%list.

(** The lamp field after an iteration. *)
Definition lamp_after (a : Automation.t) (b : float) (last : string) (lamp : Z) : Z :=
  if Automation.lamp_enabled a then
    if (b <? Automation.lamp_on_threshold a)%float && negb (String.eqb last "on")
    then 1
    else if (Automation.lamp_off_threshold a <? b)%float
            && negb (String.eqb last "off")
    then 0
    else lamp
  else lamp.

(** The locals after a run of iterations, and the calls of each of them. *)
Fixpoint advance_all (a : Automation.t) (samples : list sample) (l : Locals)
  : Locals :=
  match samples with
  | [] => l
  | (b, p, _) :: rest => advance_all a rest (advance a b p l)
  end.

Fixpoint calls_trace (a : Automation.t) (t : Topics.t) (samples : list sample)
  (l : Locals) : list (list message) :=
  match samples with
  | [] => []
  | (b, p, _) :: rest => calls a t b p l :: calls_trace a t rest (advance a b p l)
  end.

(** *** When the client refuses a topic

    The three functions above describe an iteration that runs to its end.
    With a client that raises, an iteration stops at the first [publish] whose
    topic the client refuses; the functions below say what it has done by
    then, and [frame_body_view] proves that they describe [frame_body]. *)

(** [publish] returns rather than raises: there is no client, or the client
    takes the topic. *)
Definition accepted (m : option MqttClient) (topic : string) : bool :=
  match m with
  | None => true
  | Some _ => valid_topic topic
  end.

(** The three topics that the worker publishes on are topics that the client
    takes. *)
Definition publish_topics_valid (t : Topics.t) : bool :=
  valid_topic (Topics.brightness t)
  && valid_topic (Topics.presence t)
  && valid_topic (Topics.lamp_control t).

(** [publish] returns on each of the three: there is no client, or the
    client takes them all. *)
Definition accepts (m : option MqttClient) (t : Topics.t) : bool :=
  accepted m (Topics.brightness t)
  && accepted m (Topics.presence t)
  && accepted m (Topics.lamp_control t).

(** The brightness gate publishes and records the sample. *)
Definition sends_brightness (m : option MqttClient) (t : Topics.t) (b : float)
  (l : Locals) : bool :=
  differs_float b (last_brightness l) && accepted m (Topics.brightness t).

(** The iteration gets past the brightness gate. *)
Definition passes_brightness (m : option MqttClient) (t : Topics.t) (b : float)
  (l : Locals) : bool :=
  negb (differs_float b (last_brightness l)) || accepted m (Topics.brightness t).

(** The presence gate is reached, publishes and records the sample. *)
Definition sends_presence (m : option MqttClient) (t : Topics.t) (b : float)
  (p : bool) (l : Locals) : bool :=
  passes_brightness m t b l
  && differs_bool p (last_presence l) && accepted m (Topics.presence t).

(** The iteration gets past both gates, to the State Store update. *)
Definition reaches_store (m : option MqttClient) (t : Topics.t) (b : float)
  (p : bool) (l : Locals) : bool :=
  passes_brightness m t b l
  && (negb (differs_bool p (last_presence l)) || accepted m (Topics.presence t)).

(** The iteration runs to its end: it reaches the policy block, and the
    command of the block, if it has one, is taken. *)
Definition completes (m : option MqttClient) (a : Automation.t) (t : Topics.t)
  (b : float) (p : bool) (l : Locals) : bool :=
  reaches_store m t b p l
  && match lamp_call a t b (last_lamp_action l) with
     | [] => true
     | _ :: _ => accepted m (Topics.lamp_control t)
     end.

(** The messages that the client takes in an iteration, in their order. *)
Definition handed (m : option MqttClient) (a : Automation.t) (t : Topics.t)
  (b : float) (p : bool) (l : Locals) : list message :=
  ((if sends_brightness m t b l
    then [(Topics.brightness t, brightness_payload b)] else [])
   ++ (if sends_presence m t b p l
       then [(Topics.presence t, presence_payload p)] else [])
   ++ (if completes m a t b p l
       then lamp_call a t b (last_lamp_action l) else []))%list.

(** The locals that an iteration leaves. *)
Definition left_locals (m : option MqttClient) (a : Automation.t) (t : Topics.t)
  (b : float) (p : bool) (l : Locals) : Locals :=
  mkLocals
    (if sends_presence m t b p l then Some p else last_presence l)
    (if sends_brightness m t b l then Some b else last_brightness l)
    (if completes m a t b p l
     then next_action a b (last_lamp_action l) else last_lamp_action l).

(** The State Store that an iteration leaves. *)
Definition left_state (m : option MqttClient) (a : Automation.t) (t : Topics.t)
  (b : float) (p : bool) (now : string) (l : Locals) (s : SensorState.t)
  : SensorState.t :=
  if reaches_store m t b p l then
    SensorState.mk (SensorState.temperature s) p (Some b) (Some now)
      (if completes m a t b p l
       then lamp_after a b (last_lamp_action l) (SensorState.lamp_state s)
       else SensorState.lamp_state s)
  else s.

(** *** Reading the broker's log *)






(** The last element of a list of commands. *)
Fixpoint last_command (cs : list Z) : option Z :=
  match cs with
  | [] => None
  | [c] => Some c
  | _ :: rest => last_command rest
  end.

(** The action that a command leaves behind. *)
Definition action_of (lamp : Z) : string := if lamp =? 1 then "on" else "off".


(** The number of lamp commands among the messages. *)
Definition count_commands (ms : list message) : nat :=
  List.length (filter is_lamp_command ms).

(** *** Invariants of the runs *)



(** ** Sample inputs *)

(** The process once [on_startup] has run with no configuration file: the
    defaults, a connected client, nothing sent yet. *)
Definition started : World :=
  mkWorld BackendConfig.default SensorState.default
    (Some (Client "iotzy_backend")) [] None.

(** The thresholds of the scenario of section 8 (they are the defaults). *)
Definition scenario_automation : Automation.t :=
  Automation.mk true 0.35%float 0.5%float.

(** Thresholds in the wrong order. *)
Definition inverted_automation : Automation.t :=
  Automation.mk true 0.5%float 0.35%float.

(** A stand-in for [float] on strings that knows unsigned decimal integers
    and nothing else. *)
Fixpoint digits_value (s : string) (acc : Z) : option Z :=
  match s with
  | EmptyString => Some acc
  | String ch rest =>
      let d := Z.of_nat (Ascii.nat_of_ascii ch) - 48 in
      if (0 <=? d) && (d <=? 9) then digits_value rest (10 * acc + d) else None
  end.

Definition digits_only (s : string) : option float :=
  match s with
  | EmptyString => None
  | _ =>
      match digits_value s 0 with
      | Some n =>
          match float_of_int n with
          | Returned f => Some f
          | Raised _ => None
          end
      | None => None
      end
  end.

(** A message on the temperature topic of the current configuration. *)
Definition temperature_message (w : World) (body : wire) : MQTTMessage :=
  mkMessage (Topics.temperature (BackendConfig.topics (config w))) body.

(** *** What the interleaving proof keeps track of *)

(** The statement leaves the global [config] alone. *)
Definition keeps_config (i : Instr) : Prop :=
  match i with
  | Stmt f => forall fr w fr' w', f fr w = Returned (fr', w') -> config w' = config w
  | _ => True
  end.

(** Where a [get_config] request can be, when the store holds [c]: before
    the lock, inside it before or after [asdict(config)] was evaluated, past
    the lock with that value in hand, or done with it. *)
Definition reader_at (c : BackendConfig.t) (t : Thread) : Prop :=
  (result t = None /\ code t = get_config_code)
  \/ (result t = None /\ code t = tl get_config_code)
  \/ (result t = None /\ code t = tl (tl get_config_code)
      /\ value (frame t) = Some (asdict c))
  \/ (result t = None /\ code t = tl (tl (tl get_config_code))
      /\ value (frame t) = Some (asdict c))
  \/ result t = Some (Returned (asdict c)).

Definition thread_at (c : BackendConfig.t) (r : Request) (t : Thread) : Prop :=
  match r with
  | GetConfig => reader_at c t
  | UpdateConfig _ => Forall keeps_config (code t)
  end.

(** Every thread is where its request allows, and the store holds [c]. *)
Definition coherent (c : BackendConfig.t) (requests : list Request) (s : System)
  : Prop :=
  config (world s) = c /\ Forall2 (thread_at c) requests (threads s).

(** A request that names only the automation group. *)
Definition automation_only : ConfigPayload.t :=
  ConfigPayload.mk None None None None None None None
    (Some (Automation.mk false 0.2%float 0.8%float)).

(** ** The status query *)

(** [state.model_dump()]: the five fields by name, [None] where a field is
    unset. *)
Definition model_dump (s : SensorState.t) : json :=
  JObj [("temperature",
         match SensorState.temperature s with
         | Some f => JFloat f
         | None => JNull
         end);
        ("presence", JBool (SensorState.presence s));
        ("brightness",
         match SensorState.brightness s with
         | Some f => JFloat f
         | None => JNull
         end);
        ("last_seen",
         match SensorState.last_seen s with
         | Some text => JStr text
         | None => JNull
         end);
        ("lamp_state", JInt (SensorState.lamp_state s))].

(** Lines 234-237. *)
Definition get_status (w : World) : World * outcome json :=
  (w, Returned (model_dump (state w))).

(** *** More about runs of the worker *)

(** The events of the device that are not frames. *)
Definition is_fault (e : Event) : bool :=
  match e with
  | Camera (Frame _ _ _) => false
  | Camera _ => true
  | ConfigReplaced _ => false
  end.

Definition is_camera (e : Event) : bool :=
  match e with
  | Camera _ => true
  | ConfigReplaced _ => false
  end.

(** The three shapes of the dicts that the worker publishes. *)
Definition worker_payload (p : payload) : Prop :=
  (exists b, p = brightness_payload b)
  \/ (exists present, p = presence_payload present)
  \/ p = lamp_payload 0 \/ p = lamp_payload 1.

(** The lamp field says what the last commanded action was. *)
Definition mirrored (kw : Worker * World) : Prop :=
  (last_lamp_action (locals (fst kw)) = "on"
   /\ SensorState.lamp_state (state (snd kw)) = 1)
  \/ (last_lamp_action (locals (fst kw)) = "off"
      /\ SensorState.lamp_state (state (snd kw)) = 0).

(** A sample inside the band between the thresholds (or not comparable to
    them at all): neither below the on threshold nor above the off
    threshold. *)
Definition in_band (a : Automation.t) (s : sample) : bool :=
  negb (fst (fst s) <? Automation.lamp_on_threshold a)%float
  && negb (Automation.lamp_off_threshold a <? fst (fst s))%float.

(** The newest lamp command in the log, if any, is the last commanded
    action; with none in the log the action is still off. *)
Definition tracked (kw : Worker * World) : Prop :=
  match last_command (lamp_commands (broker (snd kw))) with
  | Some s => last_lamp_action (locals (fst kw)) = action_of s /\ (s = 0 \/ s = 1)
  | None => last_lamp_action (locals (fst kw)) = "off"
  end.

(** The lamp command last given to the broker, 0 when there was none. *)
Definition commanded (w : World) : Z :=
  match last_command (lamp_commands (broker w)) with
  | Some s => s
  | None => 0
  end.

(** The sample cannot make the policy act, whatever the last action is. *)
Definition idle (a : Automation.t) (s : sample) : bool :=
  negb (Automation.lamp_enabled a) || in_band a s.

(** The same process with a client in place. *)
Definition with_client (c : MqttClient) (w : World) : World :=
  mkWorld (config w) (state w) (Some c) (broker w) (config_file w).

(** ** Loading the configuration *)

(** [d.get(key, default)] tells a key that is missing from a key that is
    bound to [None]. *)
Fixpoint dict_find (d : list (string * json)) (key : string) : option json :=
  match d with
  | [] => None
  | (k, v) :: rest => if String.eqb k key then Some v else dict_find rest key
  end.

Definition get_or (d : list (string * json)) (key : string) (default : json)
  : json :=
  match dict_find d key with
  | Some v => v
  | None => default
  end.

(** The dataclasses do not check what they are given: [load_config] builds
    its objects from whatever the file holds, so the fields of a loaded
    configuration are plain JSON values. *)
Module LoadedTopics.
Record t : Type := mk {
  temperature : json;
  presence : json;
  brightness : json;
  lamp_control : json
}.
End LoadedTopics.

Module LoadedAutomation.
Record t : Type := mk {
  lamp_enabled : json;
  lamp_on_threshold : json;
  lamp_off_threshold : json
}.
End LoadedAutomation.

Module LoadedConfig.
Record t : Type := mk {
  mqtt_host : json;
  mqtt_port : json;
  mqtt_use_ssl : json;
  mqtt_username : json;
  mqtt_password : json;
  camera_index : json;
  topics : LoadedTopics.t;
  automation : LoadedAutomation.t
}.
End LoadedConfig.

(** A configuration whose fields have the declared types, seen as a loaded
    one. *)
Definition loaded_topics (t : Topics.t) : LoadedTopics.t :=
  LoadedTopics.mk (JStr (Topics.temperature t)) (JStr (Topics.presence t))
    (JStr (Topics.brightness t)) (JStr (Topics.lamp_control t)).

Definition loaded_automation (a : Automation.t) : LoadedAutomation.t :=
  LoadedAutomation.mk (JBool (Automation.lamp_enabled a))
    (JFloat (Automation.lamp_on_threshold a))
    (JFloat (Automation.lamp_off_threshold a)).

Definition loaded_config (c : BackendConfig.t) : LoadedConfig.t :=
  LoadedConfig.mk (JStr (BackendConfig.mqtt_host c))
    (JInt (BackendConfig.mqtt_port c)) (JBool (BackendConfig.mqtt_use_ssl c))
    (JStr (BackendConfig.mqtt_username c)) (JStr (BackendConfig.mqtt_password c))
    (JInt (BackendConfig.camera_index c))
    (loaded_topics (BackendConfig.topics c))
    (loaded_automation (BackendConfig.automation c)).

(** What [load_config] can raise. *)
Module Load.
Inductive error : Type :=
| JSONDecodeError
| AttributeError
| TypeError.
End Load.

Inductive loading (A : Type) : Type :=
| Loaded (a : A)
| LoadRaised (e : Load.error).
Arguments Loaded {A} a.
Arguments LoadRaised {A} e.

(** The configuration file as [load_config] meets it: not there, holding a
    text that [json.loads] rejects, or holding the text of a JSON value.
    (Failures of the file system itself are left out.) *)
Inductive file : Type :=
| Missing
| Garbled
| Document (v : json).

(** The file that the process has written, or not yet. *)
Definition file_of (w : World) : file :=
  match config_file w with
  | None => Missing
  | Some v => Document v
  end.

Definition topic_fields : list string :=
  ["temperature"; "presence"; "brightness"; "lamp_control"].

Definition automation_fields : list string :=
  ["lamp_enabled"; "lamp_on_threshold"; "lamp_off_threshold"].

Definition config_fields : list string :=
  ["mqtt_host"; "mqtt_port"; "mqtt_use_ssl"; "mqtt_username"; "mqtt_password";
   "camera_index"; "topics"; "automation"].

(** Every key of the dict is the name of a field. *)
Definition only_fields (fields : list string) (d : list (string * json)) : bool :=
  forallb (fun kv => existsb (String.eqb (fst kv)) fields) d.

(** [Topics( **v)]: [v] must be a dict and may name fields of [Topics] only;
    a field that it does not name takes its default. *)
Definition topics_kwargs (v : json) : loading LoadedTopics.t :=
  match v with
  | JObj d =>
      if only_fields topic_fields d then
        Loaded (LoadedTopics.mk
                  (get_or d "temperature" (JStr "iotzy/sensor/temperature"))
                  (get_or d "presence" (JStr "iotzy/sensor/presence"))
                  (get_or d "brightness" (JStr "iotzy/sensor/brightness"))
                  (get_or d "lamp_control" (JStr "iotzy/device/lamp/control")))
      else LoadRaised Load.TypeError
  | _ => LoadRaised Load.TypeError
  end.

(** [Automation( **v)]. *)
Definition automation_kwargs (v : json) : loading LoadedAutomation.t :=
  match v with
  | JObj d =>
      if only_fields automation_fields d then
        Loaded (LoadedAutomation.mk
                  (get_or d "lamp_enabled" (JBool true))
                  (get_or d "lamp_on_threshold" (JFloat 0.35%float))
                  (get_or d "lamp_off_threshold" (JFloat 0.5%float)))
      else LoadRaised Load.TypeError
  | _ => LoadRaised Load.TypeError
  end.

(** Lines 77-92. *)
Definition load_config (f : file) : loading LoadedConfig.t :=
  match f with
  | Missing => Loaded (loaded_config BackendConfig.default)
  | Garbled => LoadRaised Load.JSONDecodeError
  | Document (JObj data) =>
      match topics_kwargs (get_or data "topics" (JObj [])) with
      | LoadRaised e => LoadRaised e
      | Loaded topics =>
          match automation_kwargs (get_or data "automation" (JObj [])) with
          | LoadRaised e => LoadRaised e
          | Loaded automation =>
              Loaded (LoadedConfig.mk
                        (get_or data "mqtt_host" (JStr "broker.hivemq.com"))
                        (get_or data "mqtt_port" (JInt 1883))
                        (get_or data "mqtt_use_ssl" (JBool false))
                        (get_or data "mqtt_username" (JStr EmptyString))
                        (get_or data "mqtt_password" (JStr EmptyString))
                        (get_or data "camera_index" (JInt 0))
                        topics automation)
          end
      end
  | Document _ => LoadRaised Load.AttributeError
  end.

(** ** Patches and schedules *)

(** The request that names no field. *)
Definition empty_patch : ConfigPayload.t :=
  ConfigPayload.mk None None None None None None None None.

(** The later of two optional values, the earlier one where the later is
    not given. *)
Definition or_else {A : Type} (later earlier : option A) : option A :=
  match later with
  | Some a => Some a
  | None => earlier
  end.

(** The one request that does what [p] and then [q] do. *)
Definition patch_then (p q : ConfigPayload.t) : ConfigPayload.t :=
  ConfigPayload.mk
    (or_else (ConfigPayload.mqtt_host q) (ConfigPayload.mqtt_host p))
    (or_else (ConfigPayload.mqtt_port q) (ConfigPayload.mqtt_port p))
    (or_else (ConfigPayload.mqtt_use_ssl q) (ConfigPayload.mqtt_use_ssl p))
    (or_else (ConfigPayload.mqtt_username q) (ConfigPayload.mqtt_username p))
    (or_else (ConfigPayload.mqtt_password q) (ConfigPayload.mqtt_password p))
    (or_else (ConfigPayload.camera_index q) (ConfigPayload.camera_index p))
    (or_else (ConfigPayload.topics q) (ConfigPayload.topics p))
    (or_else (ConfigPayload.automation q) (ConfigPayload.automation p)).

(** The number of threads that hold [config_lock]. *)
Definition holders (ts : list Thread) : nat := List.length (filter holding ts).

(** The frame of a [get_config] that has evaluated [asdict(config)]. *)
Definition read_frame (c : BackendConfig.t) : CallFrame :=
  mkCallFrame None None (Some (asdict c)).

(** The places where a request can be when the store holds [c], with its
    frame and with whether it holds the lock.  A [get_config] is at its
    start, inside the lock before or after the evaluation, past the lock, or
    done; an [update_config] is at its start, inside the lock before line 212,
    or done with the exception of that line. *)
Definition reader_pc (c : BackendConfig.t) (t : Thread) : Prop :=
  t = mkThread get_config_code entry false None
  \/ t = mkThread (tl get_config_code) entry true None
  \/ t = mkThread (tl (tl get_config_code)) (read_frame c) true None
  \/ t = mkThread (tl (tl (tl get_config_code))) (read_frame c) false None
  \/ t = mkThread [] (read_frame c) false (Some (Returned (asdict c))).

Definition writer_pc (p : ConfigPayload.t) (t : Thread) : Prop :=
  t = mkThread (update_config_code p) entry false None
  \/ t = mkThread (tl (update_config_code p)) entry true None
  \/ t = mkThread [] entry false (Some (Raised UnboundLocalError)).

Definition request_pc (c : BackendConfig.t) (r : Request) (t : Thread) : Prop :=
  match r with
  | GetConfig => reader_pc c t
  | UpdateConfig p => writer_pc p t
  end.

(** The process is as it was, every request is at one of its places, and
    the lock is taken exactly when one thread holds it. *)
Definition orderly (w0 : World) (requests : list Request) (s : System) : Prop :=
  world s = w0
  /\ Forall2 (request_pc (config w0)) requests (threads s)
  /\ holders (threads s) = (if locked s then 1 else 0)%nat.

(** How a request ends. *)
Definition answer (c : BackendConfig.t) (r : Request) : outcome json :=
  match r with
  | GetConfig => Returned (asdict c)
  | UpdateConfig _ => Raised UnboundLocalError
  end.

Definition served (c : BackendConfig.t) (r : Request) : Thread :=
  match r with
  | GetConfig => mkThread [] (read_frame c) false (Some (Returned (asdict c)))
  | UpdateConfig _ => mkThread [] entry false (Some (Raised UnboundLocalError))
  end.

(** The schedule that serves [n] requests one after another, [first] first:
    four turns are enough for either handler. *)
Fixpoint serial (first n : nat) : list nat :=
  match n with
  | O => []
  | S m => (repeat first 4 ++ serial (S first) m)%list
  end.

(** * Properties *)

(** ** Bookkeeping about the world *)

Lemma publish_connected topic p w c :
  mqtt_client w = Some c -> valid_topic topic = true ->
  publish topic p w = (with_broker (broker w ++ [(topic, p)]) w, Returned tt).
Proof. intros H V. unfold publish. now rewrite H, V. Qed.

Lemma publish_refused topic p w c :
  mqtt_client w = Some c -> valid_topic topic = false ->
  publish topic p w = (w, Raised ValueError).
Proof. intros H V. unfold publish. now rewrite H, V. Qed.

Lemma published_app w w' ms :
  broker w' = (broker w ++ ms)%list -> published w w' = ms.
Proof.
  intros H. unfold published. rewrite H.
  rewrite skipn_app, skipn_all, Nat.sub_diag. reflexivity.
Qed.

(** ** One iteration in closed form *)

(** Whatever the client does, an iteration is described by what it sends,
    whether it reaches the State Store and whether it runs to its end. *)
Lemma frame_body_view a t b p now l w :
  let m := mqtt_client w in
  frame_body a t b p now (l, w) =
  ((left_locals m a t b p l,
    mkWorld (config w) (left_state m a t b p now l (state w)) m
      (broker w ++ match m with
                   | Some _ => handed m a t b p l
                   | None => []
                   end)
      (config_file w)),
   if completes m a t b p l then Returned tt else Raised ValueError).
Proof.
  destruct w as [c s m br f], l as [lp lb la].
  unfold frame_body, sense, gate_brightness, gate_presence, lamp_automation,
    left_locals, left_state, handed, completes, reaches_store, sends_presence,
    passes_brightness, sends_brightness, accepted, lamp_after, lamp_call,
    next_action, update_sensed, set_lamp_state, set_last_lamp_action, publish,
    with_state, with_broker.
  destruct m; simpl;
    destruct (differs_float b lb); simpl;
    try destruct (valid_topic (Topics.brightness t)); simpl;
    destruct (differs_bool p lp); simpl;
    try destruct (valid_topic (Topics.presence t)); simpl;
    destruct (Automation.lamp_enabled a); simpl;
    destruct ((b <? Automation.lamp_on_threshold a)%float
              && negb (String.eqb la "on")); simpl;
    destruct ((Automation.lamp_off_threshold a <? b)%float
              && negb (String.eqb la "off")); simpl;
    try destruct (valid_topic (Topics.lamp_control t)); simpl;
    rewrite ?app_nil_r, <- ?app_assoc; simpl; reflexivity.
Qed.

Lemma frame_iteration_general a t b p now l w :
  frame_iteration a t b p now (l, w) =
  (left_locals (mqtt_client w) a t b p l,
   mkWorld (config w) (left_state (mqtt_client w) a t b p now l (state w))
     (mqtt_client w)
     (broker w ++ match mqtt_client w with
                  | Some _ => handed (mqtt_client w) a t b p l
                  | None => []
                  end)
     (config_file w)).
Proof. unfold frame_iteration. now rewrite frame_body_view. Qed.

Lemma frame_body_outcome a t b p now l w :
  snd (frame_body a t b p now (l, w)) =
  if completes (mqtt_client w) a t b p l then Returned tt else Raised ValueError.
Proof. now rewrite frame_body_view. Qed.

(** *** When every topic is taken *)

Lemma valid_topics_accepted m t :
  publish_topics_valid t = true -> accepts m t = true.
Proof.
  unfold publish_topics_valid, accepts, accepted. now destruct m.
Qed.

Lemma lamp_call_cases a t b last :
  lamp_call a t b last = []
  \/ lamp_call a t b last = [(Topics.lamp_control t, lamp_payload 1)]
  \/ lamp_call a t b last = [(Topics.lamp_control t, lamp_payload 0)].
Proof.
  unfold lamp_call.
  destruct (Automation.lamp_enabled a); auto.
  destruct ((b <? Automation.lamp_on_threshold a)%float
            && negb (String.eqb last "on")); auto.
  destruct ((Automation.lamp_off_threshold a <? b)%float
            && negb (String.eqb last "off")); auto.
Qed.

Lemma accepts_completes m a t b p l :
  accepts m t = true ->
  sends_brightness m t b l = differs_float b (last_brightness l)
  /\ sends_presence m t b p l = differs_bool p (last_presence l)
  /\ reaches_store m t b p l = true
  /\ completes m a t b p l = true.
Proof.
  unfold accepts, completes, reaches_store, sends_presence, passes_brightness,
    sends_brightness.
  intros H. apply andb_true_iff in H. destruct H as [H Hl].
  apply andb_true_iff in H. destruct H as [Hb Hp]. rewrite Hb, Hp, Hl.
  rewrite !orb_true_r, !andb_true_r. simpl.
  repeat split; auto.
  now destruct (lamp_call_cases a t b (last_lamp_action l)) as [E|[E|E]];
    rewrite E.
Qed.

Lemma accepts_handed m a t b p l :
  accepts m t = true -> handed m a t b p l = calls a t b p l.
Proof.
  intros H. destruct (accepts_completes m a t b p l H) as (Hb & Hp & _ & Hc).
  unfold handed, calls. now rewrite Hb, Hp, Hc.
Qed.

Lemma accepts_left_locals m a t b p l :
  accepts m t = true -> left_locals m a t b p l = advance a b p l.
Proof.
  intros H. destruct (accepts_completes m a t b p l H) as (Hb & Hp & _ & Hc).
  unfold left_locals, advance. now rewrite Hb, Hp, Hc.
Qed.

Lemma accepts_left_state m a t b p now l s :
  accepts m t = true ->
  left_state m a t b p now l s =
  SensorState.mk (SensorState.temperature s) p (Some b) (Some now)
    (lamp_after a b (last_lamp_action l) (SensorState.lamp_state s)).
Proof.
  intros H. destruct (accepts_completes m a t b p l H) as (_ & _ & Hr & Hc).
  unfold left_state. now rewrite Hr, Hc.
Qed.

(** An iteration whose topics are all taken runs to its end. *)
Lemma frame_body_full a t b p now l w :
  accepts (mqtt_client w) t = true ->
  frame_body a t b p now (l, w) =
  ((advance a b p l,
    mkWorld (config w)
      (SensorState.mk (SensorState.temperature (state w)) p (Some b) (Some now)
         (lamp_after a b (last_lamp_action l) (SensorState.lamp_state (state w))))
      (mqtt_client w)
      (broker w ++ match mqtt_client w with
                   | Some _ => calls a t b p l
                   | None => []
                   end)
      (config_file w)),
   Returned tt).
Proof.
  intros H. rewrite frame_body_view. cbv zeta.
  rewrite (accepts_left_locals _ _ _ _ _ _ H), (accepts_handed _ _ _ _ _ _ H),
    (accepts_left_state _ _ _ _ _ _ _ _ H).
  now rewrite (proj2 (proj2 (proj2 (accepts_completes _ a _ b p l H)))).
Qed.

Lemma frame_iteration_view a t b p now l w :
  accepts (mqtt_client w) t = true ->
  frame_iteration a t b p now (l, w) =
  (advance a b p l,
   mkWorld (config w)
     (SensorState.mk (SensorState.temperature (state w)) p (Some b) (Some now)
        (lamp_after a b (last_lamp_action l) (SensorState.lamp_state (state w))))
     (mqtt_client w)
     (broker w ++ match mqtt_client w with
                  | Some _ => calls a t b p l
                  | None => []
                  end)
     (config_file w)).
Proof. intros H. unfold frame_iteration. now rewrite frame_body_full. Qed.

Lemma frame_iteration_client a t b p now lw :
  mqtt_client (snd (frame_iteration a t b p now lw)) = mqtt_client (snd lw).
Proof. destruct lw. now rewrite frame_iteration_general. Qed.

Lemma frame_iteration_config a t b p now lw :
  config (snd (frame_iteration a t b p now lw)) = config (snd lw).
Proof. destruct lw. now rewrite frame_iteration_general. Qed.

Lemma frame_iteration_handed a t b p now l w c :
  mqtt_client w = Some c ->
  published w (snd (frame_iteration a t b p now (l, w))) =
  handed (Some c) a t b p l.
Proof.
  intros H. apply published_app. rewrite frame_iteration_general. simpl.
  now rewrite H.
Qed.

Lemma frame_iteration_published a t b p now l w c :
  mqtt_client w = Some c -> publish_topics_valid t = true ->
  published w (snd (frame_iteration a t b p now (l, w))) = calls a t b p l.
Proof.
  intros H V. rewrite (frame_iteration_handed _ _ _ _ _ _ _ _ H).
  apply accepts_handed, valid_topics_accepted, V.
Qed.

(** *** Runs of iterations, one at a time *)

Lemma run_frames_cons a t b p now rest l w :
  run_frames a t ((b, p, now) :: rest) (l, w) =
  if completes (mqtt_client w) a t b p l
  then run_frames a t rest (frame_iteration a t b p now (l, w))
  else frame_iteration a t b p now (l, w).
Proof.
  simpl. unfold frame_iteration. rewrite frame_body_view. simpl.
  now destruct (completes _ _ _ _ _ _).
Qed.

Lemma trace_frames_cons a t b p now rest l w :
  trace_frames a t ((b, p, now) :: rest) (l, w) =
  published w (snd (frame_iteration a t b p now (l, w)))
  :: (if completes (mqtt_client w) a t b p l
      then trace_frames a t rest (frame_iteration a t b p now (l, w))
      else []).
Proof.
  simpl. unfold frame_iteration. rewrite frame_body_view. simpl.
  now destruct (completes _ _ _ _ _ _).
Qed.


Lemma run_frames_locals a t samples l w :
  accepts (mqtt_client w) t = true ->
  fst (run_frames a t samples (l, w)) = advance_all a samples l.
Proof.
  revert l w. induction samples as [|[[b p] now] rest IH]; intros l w H.
  - reflexivity.
  - rewrite run_frames_cons.
    rewrite (proj2 (proj2 (proj2 (accepts_completes _ a _ b p l H)))).
    rewrite (frame_iteration_view _ _ _ _ _ _ _ H). apply IH. exact H.
Qed.

Lemma run_frames_client a t samples lw :
  mqtt_client (snd (run_frames a t samples lw)) = mqtt_client (snd lw).
Proof.
  revert lw. induction samples as [|[[b p] now] rest IH]; intros [l w].
  - reflexivity.
  - rewrite run_frames_cons. destruct (completes _ _ _ _ _ _).
    + now rewrite IH, frame_iteration_client.
    + apply frame_iteration_client.
Qed.

Lemma trace_frames_calls a t samples l w c :
  mqtt_client w = Some c -> publish_topics_valid t = true ->
  trace_frames a t samples (l, w) = calls_trace a t samples l.
Proof.
  intros H V. revert l w H.
  induction samples as [|[[b p] now] rest IH]; intros l w H.
  - reflexivity.
  - assert (A : accepts (mqtt_client w) t = true)
      by now apply valid_topics_accepted.
    rewrite trace_frames_cons.
    rewrite (proj2 (proj2 (proj2 (accepts_completes _ a _ b p l A)))).
    rewrite (frame_iteration_published _ _ _ _ _ _ _ _ H V). simpl. f_equal.
    rewrite (frame_iteration_view _ _ _ _ _ _ _ A). apply IH. exact H.
Qed.

(** ** What an iteration hands to the client *)


Lemma lamp_commands_app xs ys :
  lamp_commands (xs ++ ys) = (lamp_commands xs ++ lamp_commands ys)%list.
Proof.
  induction xs as [|x xs IH]; simpl; auto.
  destruct (lamp_command x); simpl; now rewrite IH.
Qed.

Lemma brightness_events_of_handed m a t b p l :
  filter is_brightness_event (handed m a t b p l) =
  if sends_brightness m t b l
  then [(Topics.brightness t, brightness_payload b)] else [].
Proof.
  unfold handed.
  destruct (lamp_call_cases a t b (last_lamp_action l)) as [E|[E|E]];
    rewrite E; clear E;
    destruct (sends_brightness m t b l), (sends_presence m t b p l),
      (completes m a t b p l);
    reflexivity.
Qed.




Lemma lamp_commands_of_handed m a t b p l :
  lamp_commands (handed m a t b p l) =
  if completes m a t b p l
  then lamp_commands (lamp_call a t b (last_lamp_action l)) else [].
Proof.
  unfold handed. rewrite !lamp_commands_app.
  destruct (sends_brightness m t b l), (sends_presence m t b p l),
    (completes m a t b p l); reflexivity.
Qed.

Lemma lamp_filter_of_handed (f : message -> bool) m a t b p l :
  (forall x, is_lamp_command x = false -> f x = false) ->
  filter f (handed m a t b p l) =
  if completes m a t b p l
  then filter f (lamp_call a t b (last_lamp_action l)) else [].
Proof.
  intros Hf. unfold handed. rewrite !filter_app.
  destruct (sends_brightness m t b l), (sends_presence m t b p l),
    (completes m a t b p l); simpl; rewrite ?Hf; auto.
Qed.

(** The same for an iteration that runs to its end. *)
Lemma calls_handed a t b p l : calls a t b p l = handed None a t b p l.
Proof. symmetry. apply accepts_handed. reflexivity. Qed.



Lemma lamp_filter_of_calls (f : message -> bool) a t b p l :
  (forall m, is_lamp_command m = false -> f m = false) ->
  filter f (calls a t b p l) = filter f (lamp_call a t b (last_lamp_action l)).
Proof.
  intros Hf. rewrite calls_handed, (lamp_filter_of_handed f) by exact Hf.
  now rewrite (proj2 (proj2 (proj2 (accepts_completes None a t b p l eq_refl)))).
Qed.

(** ** The hysteresis policy *)

Lemma action_neq_true a s : a <> s -> negb (String.eqb a s) = true.
Proof. intros H. now apply negb_true_iff, String.eqb_neq. Qed.




(** C2. The scenario of section 8: thresholds 0.35 and 0.5, automation
    enabled, last action off at the start, brightness 0.6, 0.4, 0.3, 0.3, 0.55
    (whatever the presence and the clock are, and whatever the topics are
    called, as long as the client takes them).  The lamp commands are ON in
    the third iteration and OFF in the fifth and none elsewhere; brightness
    is published in iterations 1, 2, 3 and 5 and not in the fourth. *)
Theorem scenario_of_section_8
  (t : Topics.t) (p1 p2 p3 p4 p5 : bool) (n1 n2 n3 n4 n5 : string)
  (w : World) (c : MqttClient) :
  mqtt_client w = Some c ->
  publish_topics_valid t = true ->
  let samples :=
    [(0.6%float, p1, n1); (0.4%float, p2, n2); (0.3%float, p3, n3);
     (0.3%float, p4, n4); (0.55%float, p5, n5)] in
  let tr := trace_frames scenario_automation t samples (initial_locals, w) in
  let lamp (s : Z) : message :=
    (Topics.lamp_control t, [("state", PInt s); ("source", PStr "camera")]) in
  let brightness (x : float) : message :=
    (Topics.brightness t, [("value", PRound x 3)]) in
  map (filter is_lamp_command) tr = [[]; []; [lamp 1]; []; [lamp 0]]
  /\ map (filter is_brightness_event) tr =
    [[brightness 0.6%float]; [brightness 0.4%float]; [brightness 0.3%float];
     []; [brightness 0.55%float]].
Proof.
  intros H V samples tr lamp brightness. unfold tr, samples.
  rewrite (trace_frames_calls _ _ _ _ _ _ H V).
  destruct p1, p2, p3, p4, p5; split; vm_compute; reflexivity.
Qed.

Lemma scenario_of_section_8_witness :
  map (filter is_lamp_command)
    (trace_frames scenario_automation Topics.default
       [(0.6%float, false, "t1"); (0.4%float, false, "t2");
        (0.3%float, true, "t3"); (0.3%float, true, "t4");
        (0.55%float, false, "t5")] (initial_locals, started)) =
    [[]; []; [("iotzy/device/lamp/control", lamp_payload 1)]; [];
     [("iotzy/device/lamp/control", lamp_payload 0)]].
Proof.
  exact (proj1 (scenario_of_section_8 Topics.default false false true true false
                  "t1" "t2" "t3" "t4" "t5" started (Client "iotzy_backend")
                  eq_refl eq_refl)).
Defined.

(** ** The State Store update *)

Lemma accepted_gates_reach_store m t b p l :
  accepted m (Topics.brightness t) = true ->
  accepted m (Topics.presence t) = true ->
  reaches_store m t b p l = true.
Proof.
  intros Hb Hp. unfold reaches_store, passes_brightness.
  now rewrite Hb, Hp, !orb_true_r.
Qed.




(** ** Steps of the worker *)

(** A frame in a capture session: the worker stays in the session if the
    iteration ran to its end, and has ended otherwise. *)
Lemma camera_worker_step_frame k w ci a t g r now :
  phase k = Capturing ci a t ->
  camera_worker_step (Frame g r now) k w =
  Some (mkWorker
          (if completes (mqtt_client w) a t (brightness_of g) (presence_of r)
                (locals k)
           then Capturing ci a t else Ended ValueError)
          (fst (frame_iteration a t (brightness_of g) (presence_of r) now
                  (locals k, w))),
        snd (frame_iteration a t (brightness_of g) (presence_of r) now
               (locals k, w))).
Proof.
  intros H. unfold camera_worker_step. rewrite H.
  unfold frame_iteration. rewrite frame_body_view. simpl.
  now destruct (completes _ _ _ _ _ _).
Qed.

(** A step is a frame iteration of the session's snapshot, or it leaves the
    locals, the State Store, the broker and the file alone. *)
Lemma step_inv e k w k' w' :
  step e (k, w) = Some (k', w') ->
  (locals k' = locals k /\ state w' = state w /\ broker w' = broker w
   /\ mqtt_client w' = mqtt_client w /\ config_file w' = config_file w
   /\ (config w' = config w \/ exists c, e = ConfigReplaced c))
  \/ exists ci a t g r now,
       e = Camera (Frame g r now) /\ phase k = Capturing ci a t
       /\ (locals k', w') =
          frame_iteration a t (brightness_of g) (presence_of r) now (locals k, w)
       /\ phase k' =
          if completes (mqtt_client w) a t (brightness_of g) (presence_of r)
               (locals k)
          then Capturing ci a t else Ended ValueError.
Proof.
  destruct e as [ev|c]; simpl.
  - destruct (phase k) as [|ci a t|x] eqn:Hph.
    + unfold camera_worker_step. rewrite Hph.
      destruct ev; intros H; inversion H; subst; simpl; left; auto 10.
    + destruct ev as [| | | |g r now];
        try (unfold camera_worker_step; rewrite Hph; intros H; inversion H;
             subst; simpl; left; now auto 10).
      rewrite (camera_worker_step_frame _ _ _ _ _ _ _ _ Hph).
      intros H. inversion H; subst; clear H. right.
      exists ci, a, t, g, r, now. simpl. repeat split; auto.
      now destruct (frame_iteration _ _ _ _ _ _).
    + unfold camera_worker_step. rewrite Hph. destruct ev; discriminate.
  - intros H. inversion H; subst. simpl. left. eauto 10.
Qed.

Lemma step_client e kw kw' :
  step e kw = Some kw' -> mqtt_client (snd kw') = mqtt_client (snd kw).
Proof.
  destruct kw as [k w], kw' as [k' w']. intros H.
  destruct (step_inv _ _ _ _ _ H)
    as [(_ & _ & _ & Hc & _)|(ci & a & t & g & r & now & _ & _ & E & _)].
  - exact Hc.
  - simpl. replace w' with (snd (locals k', w')) by reflexivity.
    rewrite E. apply frame_iteration_client.
Qed.


(** ** The change gates *)








(** ** No flapping *)

(** Comparison of binary64 numbers is a linear order away from NaN: what is
    below [y] is not above anything that [y] does not exceed. *)
Lemma SFcompare_chain x y z :
  SFcompare x y = Some Lt ->
  (SFcompare y z = Some Lt \/ SFcompare y z = Some Eq) ->
  SFcompare z x <> Some Lt.
Proof.
  destruct x as [sx|sx| |sx mx ex], y as [sy|sy| |sy my ey],
    z as [sz|sz| |sz mz ez]; simpl;
    try destruct sx; try destruct sy; try destruct sz; simpl;
    intros H1 [H2|H2]; try discriminate; try (intros H3; discriminate).
  all: revert H1 H2; rewrite ?Pos.compare_cont_spec; simpl;
    destruct (Z.compare_spec ex ey), (Z.compare_spec ey ez),
      (Z.compare_spec ez ex); try lia; subst;
    try discriminate; try (intros; discriminate).
  all: destruct (Pos.compare_spec mx my), (Pos.compare_spec my mz),
      (Pos.compare_spec mz mx); simpl; try lia; subst;
    try discriminate; try (intros; discriminate); try lia.
Qed.

Lemma below_on_not_above_off (b on off : float) :
  (b <? on)%float = true -> (on <=? off)%float = true ->
  (off <? b)%float = false.
Proof.
  rewrite !ltb_spec, leb_spec. unfold SFltb, SFleb.
  intros H1 H2.
  pose proof (SFcompare_chain (Prim2SF b) (Prim2SF on) (Prim2SF off)) as H.
  destruct (SFcompare (Prim2SF b) (Prim2SF on)) as [[| |]|]; try discriminate.
  destruct (SFcompare (Prim2SF on) (Prim2SF off)) as [[| |]|]; try discriminate;
    destruct (SFcompare (Prim2SF off) (Prim2SF b)) as [[| |]|]; auto;
    exfalso; apply H; auto.
Qed.

(** A command is emitted exactly when the last action changes. *)
Lemma lamp_call_next a t b last :
  (lamp_call a t b last = [] /\ next_action a b last = last)
  \/ (lamp_call a t b last = [(Topics.lamp_control t, lamp_payload 1)]
      /\ next_action a b last = "on" /\ last <> "on")
  \/ (lamp_call a t b last = [(Topics.lamp_control t, lamp_payload 0)]
      /\ next_action a b last = "off" /\ last <> "off").
Proof.
  unfold lamp_call, next_action.
  destruct (Automation.lamp_enabled a); auto.
  destruct (b <? Automation.lamp_on_threshold a)%float; simpl.
  - destruct (String.eqb_spec last "on"); simpl; auto.
    destruct (Automation.lamp_off_threshold a <? b)%float; simpl; auto.
    destruct (String.eqb_spec last "off"); simpl; auto.
  - destruct (Automation.lamp_off_threshold a <? b)%float; simpl; auto.
    destruct (String.eqb_spec last "off"); simpl; auto.
Qed.

Lemma last_command_snoc cs c : last_command (cs ++ [c]) = Some c.
Proof.
  induction cs as [|x cs IH]; simpl; auto.
  rewrite IH. destruct (cs ++ [c])%list eqn:E; auto.
  now destruct cs.
Qed.







Lemma count_commands_app xs ys :
  count_commands (xs ++ ys) = (count_commands xs + count_commands ys)%nat.
Proof. unfold count_commands. now rewrite filter_app, length_app. Qed.


(** What the client took in one iteration. *)
Lemma frame_iteration_sent a t b p now l w :
  published w (snd (frame_iteration a t b p now (l, w))) =
  match mqtt_client w with
  | Some _ => handed (mqtt_client w) a t b p l
  | None => []
  end.
Proof. apply published_app. now rewrite frame_iteration_general. Qed.

(** Without a client the iterations publish nothing. *)
Lemma trace_frames_silent a t samples l w :
  mqtt_client w = None -> List.concat (trace_frames a t samples (l, w)) = [].
Proof.
  revert l w. induction samples as [|[[b p] now] rest IH]; intros l w H.
  - reflexivity.
  - rewrite trace_frames_cons, frame_iteration_sent, H. simpl.
    destruct (completes _ _ _ _ _ _); [|reflexivity].
    rewrite frame_iteration_general. apply IH. exact H.
Qed.







(** ** Which configuration an iteration runs on *)

Lemma camera_step_config ev k w k' w' :
  step (Camera ev) (k, w) = Some (k', w') -> config w' = config w.
Proof.
  intros H.
  destruct (step_inv _ _ _ _ _ H)
    as [(_ & _ & _ & _ & _ & [Hc|[c Hc]])
       |(ci & a & t & g & r & now & _ & _ & E & _)].
  - exact Hc.
  - discriminate Hc.
  - replace w' with (snd (locals k', w')) by reflexivity.
    rewrite E. apply frame_iteration_config.
Qed.

(** A step of the worker keeps the snapshot in use equal to what the store
    holds, as long as nothing else binds [config]. *)
Lemma camera_step_snapshot ev k w k' w' :
  step (Camera ev) (k, w) = Some (k', w') ->
  (forall sn, snapshot k = Some sn -> sn = current w) ->
  forall sn, snapshot k' = Some sn -> sn = current w'.
Proof.
  intros H Hk sn Hsn.
  assert (Hc : current w' = current w)
    by (unfold current; now rewrite (camera_step_config _ _ _ _ _ H)).
  rewrite Hc. clear Hc. simpl in H. unfold snapshot in *.
  destruct (phase k) as [|ci a t|x] eqn:Hph.
  - unfold camera_worker_step in H. rewrite Hph in H.
    destruct ev; inversion H; subst; clear H; simpl in Hsn.
    + rewrite Hph in Hsn. discriminate.
    + now inversion Hsn.
  - destruct ev as [| | | |g r now];
      try (unfold camera_worker_step in H; rewrite Hph in H; inversion H; subst;
           simpl in Hsn; discriminate).
    rewrite (camera_worker_step_frame _ _ _ _ _ _ _ _ Hph) in H.
    inversion H; subst; clear H. simpl in Hsn.
    destruct (completes _ _ _ _ _ _); [|discriminate].
    apply Hk. exact Hsn.
  - unfold camera_worker_step in H. rewrite Hph in H. destruct ev; discriminate.
Qed.




(** ** The inbound temperature handler *)

Section HandlerFacts.

Variable float_of_str : string -> option float.

(** What the handler gets right: text that is not JSON is dropped. *)
Lemma not_json_dropped w :
  mqtt_on_message float_of_str (temperature_message w NotJson) w = (w, Returned tt).
Proof.
  unfold mqtt_on_message, temperature_message. simpl.
  now rewrite String.eqb_refl.
Qed.

(** An object with none of the three keys is dropped. *)
Lemma no_key_dropped w d :
  dict_get d "value" = JNull -> dict_get d "temperature" = JNull ->
  dict_get d "temp" = JNull ->
  mqtt_on_message float_of_str (temperature_message w (Json (JObj d))) w =
  (w, Returned tt).
Proof.
  intros H1 H2 H3. unfold mqtt_on_message, temperature_message. simpl.
  rewrite String.eqb_refl, H1, H2, H3. reflexivity.
Qed.

(** A float reading other than zero under the first key is stored. *)
Lemma float_reading_stored w d f :
  dict_get d "value" = JFloat f -> (f =? 0)%float = false ->
  mqtt_on_message float_of_str (temperature_message w (Json (JObj d))) w =
  (set_temperature f w, Returned tt).
Proof.
  intros H1 H2. unfold mqtt_on_message, temperature_message. simpl.
  rewrite String.eqb_refl, H1. unfold py_or. simpl. rewrite H2. reflexivity.
Qed.

(** Bytes that are not UTF-8 and JSON texts that are not objects are not
    dropped: the exception leaves the handler. *)
Lemma undecodable_raises w :
  mqtt_on_message float_of_str (temperature_message w NotUtf8) w =
  (w, Raised UnicodeDecodeError).
Proof.
  unfold mqtt_on_message, temperature_message. simpl.
  now rewrite String.eqb_refl.
Qed.

Lemma json_array_raises w items :
  mqtt_on_message float_of_str (temperature_message w (Json (JArr items))) w =
  (w, Raised AttributeError).
Proof.
  unfold mqtt_on_message, temperature_message. simpl.
  now rewrite String.eqb_refl.
Qed.

(** A zero under the first key is passed over by [or], and the next key is
    stored instead. *)
Lemma zero_value_passed_over w :
  mqtt_on_message float_of_str
    (temperature_message w
       (Json (JObj [("value", JInt 0); ("temperature", JFloat 21.5%float)]))) w =
  (set_temperature 21.5%float w, Returned tt).
Proof.
  unfold mqtt_on_message, temperature_message. simpl.
  now rewrite String.eqb_refl.
Qed.

End HandlerFacts.

(** C6 (the code departs from it).  The payload [{"value": 0}] arrives on the
    temperature topic: the accepted key [value] is present and bound to a
    number, yet nothing is stored.  The handler returns with the State Store
    as it was, because [0 or None or None] is [None]. *)
Theorem zero_reading_not_stored
  (float_of_str : string -> option float) (w : World) :
  mqtt_on_message float_of_str
    (temperature_message w (Json (JObj [("value", JInt 0)]))) w =
  (w, Returned tt).
Proof.
  unfold mqtt_on_message, temperature_message. simpl.
  now rewrite String.eqb_refl.
Qed.

(** C10. A message on the temperature topic whose JSON object yields, through
    the chain of [or], a string that [float] does not accept makes the handler
    raise [ValueError]: the only exception it catches is
    [json.JSONDecodeError].  The State Store is left as it was.  A non-empty
    string under [value] is such an object. *)
Theorem non_numeric_string_raises
  (float_of_str : string -> option float) (w : World)
  (d : list (string * json)) (s : string) :
  float_of_str s = None ->
  s <> EmptyString ->
  dict_get d "value" = JStr s ->
  mqtt_on_message float_of_str (temperature_message w (Json (JObj d))) w =
  (w, Raised ValueError).
Proof.
  intros Hf Hs Hd. unfold mqtt_on_message, temperature_message. simpl.
  rewrite String.eqb_refl, Hd. unfold py_or. simpl.
  apply String.eqb_neq in Hs. rewrite Hs. simpl. now rewrite Hf.
Qed.

(** C10 at [{"value": "abc"}]. *)
Lemma non_numeric_string_raises_witness :
  mqtt_on_message digits_only
    (temperature_message started (Json (JObj [("value", JStr "abc")]))) started =
  (started, Raised ValueError).
Proof.
  apply (non_numeric_string_raises digits_only started
           [("value", JStr "abc")] "abc");
    [reflexivity | discriminate | reflexivity].
Defined.

(** ** The Config Store *)

(** The eight assignments of lines 213-228 leave a field alone unless the
    request names it, and replace a nested group as a whole. *)
Lemma apply_patch_fields p u :
  apply_patch p u =
  BackendConfig.mk
    (if_given (ConfigPayload.mqtt_host p) (BackendConfig.mqtt_host u))
    (if_given (ConfigPayload.mqtt_port p) (BackendConfig.mqtt_port u))
    (if_given (ConfigPayload.mqtt_use_ssl p) (BackendConfig.mqtt_use_ssl u))
    (if_given (ConfigPayload.mqtt_username p) (BackendConfig.mqtt_username u))
    (if_given (ConfigPayload.mqtt_password p) (BackendConfig.mqtt_password u))
    (if_given (ConfigPayload.camera_index p) (BackendConfig.camera_index u))
    (if_given (ConfigPayload.topics p) (BackendConfig.topics u))
    (if_given (ConfigPayload.automation p) (BackendConfig.automation u)).
Proof. reflexivity. Qed.

(** The copy of line 212 holds what the original holds, with the two groups
    as dicts. *)
Lemma rebuild_fields c :
  fields (rebuild c) = fields c
  /\ topics_held (rebuild c) = AsDict /\ automation_held (rebuild c) = AsDict.
Proof. destruct c as [[] ? ?]. repeat split. Qed.

(** Had line 212 found an object [c] under the name [config], the rest of
    the handler would have saved and returned the patched entries of [c]. *)
Lemma update_config_after_line_212 p c w :
  exec (tl (tl (update_config_code p)))
    (mkCallFrame (Some c) (Some (rebuild c)) None) w =
  (save_config (apply_patch p (fields c)) w,
   Returned (JObj [("status", JStr "updated");
                   ("config", asdict (apply_patch p (fields c)))])).
Proof. destruct c as [[] ? ?]; reflexivity. Qed.

(** C7 (the code departs from it).  Whatever the request and the stored
    configuration, [update_config] raises [UnboundLocalError] at line 212: it
    returns no snapshot, writes no file and leaves the global [config] as it
    was. *)
Theorem update_config_raises (p : ConfigPayload.t) (w : World) :
  update_config p w = (w, Raised UnboundLocalError).
Proof.
  unfold update_config, update_config_code. simpl.
  unfold copy_config, entry, load. simpl. reflexivity.
Qed.

Lemma get_config_returns w : get_config w = (w, Returned (asdict (config w))).
Proof. reflexivity. Qed.

(** ** Requests served concurrently *)

Lemma update_config_code_keeps_config p :
  Forall keeps_config (update_config_code p).
Proof.
  unfold update_config_code.
  repeat (apply Forall_cons; [|]); try apply Forall_nil; simpl; auto;
    intros fr w fr' w';
    unfold copy_config, on_updated, save_updated, bind_config, load;
    match goal with
    | |- context [match ?slot with _ => _ end] => destruct slot
    end;
    intros H; inversion H; reflexivity.
Qed.

Lemma thread_step_reader c t l w :
  config w = c ->
  reader_at c t ->
  let '(t', _, w') := thread_step t l w in
  config w' = c /\ reader_at c t'.
Proof.
  intros Hc H. unfold thread_step.
  destruct H as [[Hr Hcode]|[[Hr Hcode]|[[Hr [Hcode Hv]]|[[Hr [Hcode Hv]]|Hr]]]];
    rewrite Hr; try rewrite Hcode; simpl.
  - destruct l; split; auto; unfold reader_at; simpl; auto.
  - split; auto. unfold reader_at. simpl. rewrite Hc. auto 10.
  - split; auto. unfold reader_at. simpl. auto 10.
  - split; auto. unfold reader_at, return_value. simpl. rewrite Hv. simpl.
    auto 10.
  - split; auto. unfold reader_at. auto 10.
Qed.

Lemma thread_step_writer c t l w :
  config w = c ->
  Forall keeps_config (code t) ->
  let '(t', _, w') := thread_step t l w in
  config w' = c /\ Forall keeps_config (code t').
Proof.
  intros Hc H. unfold thread_step.
  destruct (result t); [auto|].
  destruct (code t) as [|i rest] eqn:Ec; [simpl; auto|].
  inversion H as [|? ? Hi Hrest]; subst.
  destruct i as [| |f|f]; simpl.
  - destruct l; simpl; rewrite ?Ec; auto.
  - auto.
  - destruct (f (frame t) w) as [[fr' w']|e] eqn:E; simpl; auto.
    split; auto. exact (Hi _ _ _ _ E).
  - auto.
Qed.

Lemma thread_step_at c r t l w :
  config w = c ->
  thread_at c r t ->
  let '(t', _, w') := thread_step t l w in
  config w' = c /\ thread_at c r t'.
Proof.
  destruct r; simpl; [apply thread_step_reader | apply thread_step_writer].
Qed.

Lemma Forall2_replace_nth {A B : Type} (P : A -> B -> Prop) xs ys i y' :
  Forall2 P xs ys ->
  (forall x, nth_error xs i = Some x -> P x y') ->
  Forall2 P xs (replace_nth i y' ys).
Proof.
  intros H. revert i. induction H as [|x y xs ys Hxy H IH]; intros i Hi.
  - destruct i; simpl; constructor.
  - destruct i as [|i]; simpl.
    + constructor; auto.
    + constructor; auto.
Qed.

Lemma Forall2_nth_error {A B : Type} (P : A -> B -> Prop) xs ys i y :
  Forall2 P xs ys -> nth_error ys i = Some y ->
  exists x, nth_error xs i = Some x /\ P x y.
Proof.
  intros H. revert i. induction H as [|x0 y0 xs ys Hxy H IH]; intros i Hi.
  - destruct i; discriminate.
  - destruct i as [|i]; simpl in *.
    + inversion Hi; subst. eauto.
    + auto.
Qed.


Lemma boot_coherent w requests : coherent (config w) requests (boot w requests).
Proof.
  split; [reflexivity|]. unfold boot. simpl.
  induction requests as [|r rs IH]; simpl; constructor; auto.
  destruct r; simpl.
  - left. auto.
  - apply update_config_code_keeps_config.
Qed.

Lemma sys_step_coherent c requests i s :
  coherent c requests s -> coherent c requests (sys_step i s).
Proof.
  intros [Hc Hts]. unfold sys_step.
  destruct (nth_error (threads s) i) as [t|] eqn:Et; [|split; auto].
  destruct (Forall2_nth_error _ _ _ _ _ Hts Et) as [r [Er Hr]].
  pose proof (thread_step_at c r t (locked s) (world s) Hc Hr) as H.
  destruct (thread_step t (locked s) (world s)) as [[t' l'] w'].
  destruct H as [Hc' Hr']. split; simpl; auto.
  apply Forall2_replace_nth; auto.
  intros x Ex. rewrite Er in Ex. inversion Ex; subst. exact Hr'.
Qed.

Lemma interleave_coherent c requests choices s :
  coherent c requests s -> coherent c requests (interleave choices s).
Proof.
  revert s. induction choices as [|i rest IH]; intros s H; simpl; auto.
  apply IH, sys_step_coherent, H.
Qed.

(** A request served with no other request around ends as [exec] says, with
    the lock free again. *)
Lemma get_config_alone w :
  let s := interleave [0; 0; 0; 0]%nat (boot w [GetConfig]) in
  world s = fst (get_config w)
  /\ map result (threads s) = [Some (snd (get_config w))]
  /\ locked s = false.
Proof. repeat split. Qed.

Lemma update_config_alone p w :
  let s := interleave [0; 0]%nat (boot w [UpdateConfig p]) in
  world s = fst (update_config p w)
  /\ map result (threads s) = [Some (snd (update_config p w))]
  /\ locked s = false.
Proof. repeat split. Qed.

(** A writer inside the lock keeps a reader out. *)
Lemma reader_waits_for_writer p w :
  let s := interleave [1; 0; 0]%nat (boot w [GetConfig; UpdateConfig p]) in
  locked s = true /\ map code (threads s) = [get_config_code; tl (update_config_code p)].
Proof. repeat split. Qed.

(** C9. Any number of [get_config] and [update_config] requests run
    statement by statement in any order, each taking [config_lock] as the code
    does.  Whatever the order, a [get_config] that has finished returned the
    whole of the configuration that the store held at the start: no reader
    sees a mixture.  (No [update_config] ever rebinds the global, so the
    snapshot that readers see is always the old one, and the store still
    holds it.) *)
Theorem readers_see_whole_snapshots
  (w0 : World) (requests : list Request) (choices : list nat)
  (i : nat) (t : Thread) (r : outcome json) :
  nth_error requests i = Some GetConfig ->
  nth_error (threads (interleave choices (boot w0 requests))) i = Some t ->
  result t = Some r ->
  r = Returned (asdict (config w0))
  /\ config (world (interleave choices (boot w0 requests))) = config w0.
Proof.
  intros Hreq Ht Hres.
  destruct (interleave_coherent (config w0) requests choices _
              (boot_coherent w0 requests)) as [Hc Hts].
  split; [|exact Hc].
  destruct (Forall2_nth_error _ _ _ _ _ Hts Ht) as [x [Ex Hx]].
  rewrite Hreq in Ex. inversion Ex; subst x. simpl in Hx.
  destruct Hx as [[Hr _]|[[Hr _]|[[Hr _]|[[Hr _]|Hr]]]];
    rewrite Hr in Hres; try discriminate.
  now inversion Hres.
Qed.

(** C9 on a reader and a writer whose statements alternate: the reader
    takes the lock first, the writer waits, fails at line 212 once it has the
    lock, and the reader returns the defaults. *)
Lemma readers_see_whole_snapshots_witness :
  Returned (asdict BackendConfig.default) =
  Returned (asdict (config started))
  /\ config
       (world
          (interleave [0; 1; 0; 1; 0; 1; 1; 0]%nat
             (boot started [GetConfig; UpdateConfig automation_only]))) =
     config started.
Proof.
  exact (readers_see_whole_snapshots started
           [GetConfig; UpdateConfig automation_only]
           [0; 1; 0; 1; 0; 1; 1; 0]%nat 0%nat
           (mkThread [] (mkCallFrame None None (Some (asdict BackendConfig.default)))
              false (Some (Returned (asdict BackendConfig.default))))
           (Returned (asdict BackendConfig.default))
           eq_refl eq_refl eq_refl).
Defined.

(** * Further properties of the code *)

(** ** The worker and the rest of the process *)

Lemma step_keeps_the_rest e kw kw' :
  step e kw = Some kw' ->
  config_file (snd kw') = config_file (snd kw)
  /\ mqtt_client (snd kw') = mqtt_client (snd kw)
  /\ SensorState.temperature (state (snd kw')) =
     SensorState.temperature (state (snd kw))
  /\ (is_camera e = true -> config (snd kw') = config (snd kw)).
Proof.
  destruct kw as [k w], kw' as [k' w']. simpl. intros H.
  destruct (step_inv _ _ _ _ _ H)
    as [(_ & Hs & _ & Hc & Hf & Hg)|(ci & a & t & g & r & now & He & _ & E & _)].
  - rewrite Hs, Hc, Hf. repeat split.
    destruct Hg as [Hg|[c Hg]]; [auto|]. subst e. discriminate.
  - rewrite frame_iteration_general in E. injection E as _ Ew. rewrite Ew.
    simpl. unfold left_state.
    destruct (reaches_store _ _ _ _ _); auto.
Qed.

(** Whatever the device does and however often the configuration is
    replaced meanwhile, the worker writes neither the temperature, nor the
    configuration file, nor the client; and it never assigns the
    configuration. *)
Theorem worker_leaves_the_rest es kw kw' :
  run es kw = Some kw' ->
  config_file (snd kw') = config_file (snd kw)
  /\ mqtt_client (snd kw') = mqtt_client (snd kw)
  /\ SensorState.temperature (state (snd kw')) =
     SensorState.temperature (state (snd kw))
  /\ (forallb is_camera es = true -> config (snd kw') = config (snd kw)).
Proof.
  revert kw. induction es as [|e es IH]; intros kw H; simpl in H.
  - inversion H; subst. auto.
  - destruct (step e kw) as [kw1|] eqn:E; [|discriminate].
    destruct (step_keeps_the_rest _ _ _ E) as (F1 & C1 & T1 & G1).
    destruct (IH _ H) as (F2 & C2 & T2 & G2).
    rewrite F2, C2, T2. repeat split; auto.
    simpl. intros Hall. apply andb_true_iff in Hall. destruct Hall as [He Hes].
    rewrite (G2 Hes). auto.
Qed.

Lemma worker_leaves_the_rest_witness :
  SensorState.temperature
    (state
       (snd (mkWorker (Capturing 0 Automation.default Topics.default)
               (advance Automation.default (brightness_of 51%float)
                  (presence_of []) initial_locals),
             snd (frame_iteration Automation.default Topics.default
                    (brightness_of 51%float) (presence_of []) "t1"
                    (initial_locals, set_temperature 21.5%float started))))) =
  Some 21.5%float.
Proof.
  exact (proj1 (proj2 (proj2
           (worker_leaves_the_rest
              [Camera Opened; Camera (Frame 51%float [] "t1")]
              (initial_worker, set_temperature 21.5%float started)
              _ eq_refl)))).
Defined.

Lemma handed_are_worker_payloads m a t b p l :
  Forall (fun x => worker_payload (snd x)) (handed m a t b p l).
Proof.
  unfold handed. apply Forall_app; split; [|apply Forall_app; split].
  - destruct (sends_brightness m t b l); [|constructor].
    constructor; [|constructor]. left. now exists b.
  - destruct (sends_presence m t b p l); [|constructor].
    constructor; [|constructor]. right; left. now exists p.
  - destruct (completes m a t b p l); [|constructor].
    destruct (lamp_call_cases a t b (last_lamp_action l)) as [E|[E|E]];
      rewrite E; [constructor | |];
      (constructor; [|constructor]); unfold worker_payload; simpl; auto.
Qed.

Lemma step_appends e kw kw' :
  step e kw = Some kw' ->
  exists ms, broker (snd kw') = (broker (snd kw) ++ ms)%list
             /\ Forall (fun m => worker_payload (snd m)) ms.
Proof.
  destruct kw as [k w], kw' as [k' w']. simpl. intros H.
  destruct (step_inv _ _ _ _ _ H)
    as [(_ & _ & Hb & _)|(ci & a & t & g & r & now & _ & _ & E & _)].
  - exists []. split; [now rewrite Hb, app_nil_r | constructor].
  - rewrite frame_iteration_general in E. injection E as _ Ew. rewrite Ew.
    simpl. destruct (mqtt_client w).
    + eexists. split; [reflexivity|]. apply handed_are_worker_payloads.
    + exists []. split; [reflexivity | constructor].
Qed.

(** The log of the broker only grows: a run of the worker keeps every
    earlier message in place and adds, at the end, only brightness events,
    presence events and lamp commands with state 0 or 1. *)
Theorem broker_log_only_grows es kw kw' :
  run es kw = Some kw' ->
  exists ms, broker (snd kw') = (broker (snd kw) ++ ms)%list
             /\ Forall (fun m => worker_payload (snd m)) ms.
Proof.
  revert kw. induction es as [|e es IH]; intros kw H; simpl in H.
  - inversion H; subst. exists []. split; [now rewrite app_nil_r | constructor].
  - destruct (step e kw) as [kw1|] eqn:E; [|discriminate].
    destruct (step_appends _ _ _ E) as (ms1 & B1 & W1).
    destruct (IH _ H) as (ms2 & B2 & W2).
    exists (ms1 ++ ms2)%list. split.
    + now rewrite B2, B1, app_assoc.
    + apply Forall_app. auto.
Qed.

Lemma broker_log_only_grows_witness :
  exists ms,
    broker
      (snd (mkWorker (Capturing 0 Automation.default Topics.default)
              (advance Automation.default (brightness_of 51%float)
                 (presence_of []) initial_locals),
            snd (frame_iteration Automation.default Topics.default
                   (brightness_of 51%float) (presence_of []) "t1"
                   (initial_locals, started)))) =
    (broker (snd (initial_worker, started)) ++ ms)%list
    /\ Forall (fun m => worker_payload (snd m)) ms.
Proof.
  exact (broker_log_only_grows
           [Camera Opened; Camera (Frame 51%float [] "t1")]
           (initial_worker, started) _ eq_refl).
Defined.

(** ** The lamp field, the last action and the log *)

Lemma lamp_after_next a b last lamp :
  (next_action a b last = last /\ lamp_after a b last lamp = lamp)
  \/ (next_action a b last = "on" /\ lamp_after a b last lamp = 1)
  \/ (next_action a b last = "off" /\ lamp_after a b last lamp = 0).
Proof.
  unfold next_action, lamp_after.
  destruct (Automation.lamp_enabled a); auto.
  destruct ((b <? Automation.lamp_on_threshold a)%float
            && negb (String.eqb last "on")); auto.
  destruct ((Automation.lamp_off_threshold a <? b)%float
            && negb (String.eqb last "off")); auto.
Qed.

(** The lamp field is set when, and only when, the policy block ran to its
    end. *)
Lemma left_state_lamp m a t b p now l s :
  SensorState.lamp_state (left_state m a t b p now l s) =
  if completes m a t b p l
  then lamp_after a b (last_lamp_action l) (SensorState.lamp_state s)
  else SensorState.lamp_state s.
Proof.
  unfold left_state, completes.
  now destruct (reaches_store m t b p l).
Qed.

Lemma step_mirrored e kw kw' :
  step e kw = Some kw' -> mirrored kw -> mirrored kw'.
Proof.
  destruct kw as [k w], kw' as [k' w']. intros Hs Hm.
  unfold mirrored in *. simpl in *.
  destruct (step_inv _ _ _ _ _ Hs)
    as [(Hl & Hst & _)|(ci & a & t & g & r & now & _ & _ & E & _)].
  - now rewrite Hl, Hst.
  - rewrite frame_iteration_general in E. injection E as El Ew.
    rewrite El, Ew. simpl. rewrite left_state_lamp.
    destruct (completes _ _ _ _ _ _); [|exact Hm].
    destruct (lamp_after_next a (brightness_of g)
                (last_lamp_action (locals k))
                (SensorState.lamp_state (state w)))
      as [[N L]|[[N L]|[N L]]]; rewrite N, L; auto.
Qed.

Lemma step_tracked e kw kw' c :
  mqtt_client (snd kw) = Some c ->
  step e kw = Some kw' -> tracked kw -> tracked kw'.
Proof.
  destruct kw as [k w], kw' as [k' w']. simpl. intros Hc Hs Ht.
  unfold tracked in *. simpl in *.
  destruct (step_inv _ _ _ _ _ Hs)
    as [(Hl & _ & Hb & _)|(ci & a & t & g & r & now & _ & _ & E & _)].
  - now rewrite Hl, Hb.
  - rewrite frame_iteration_general in E. injection E as El Ew.
    rewrite El, Ew. simpl.
    rewrite Hc, lamp_commands_app, lamp_commands_of_handed.
    destruct (completes _ _ _ _ _ _); [|now rewrite app_nil_r].
    destruct (lamp_call_next a t (brightness_of g)
                (last_lamp_action (locals k)))
      as [[E N]|[[E [N D]]|[E [N D]]]]; rewrite E, N; simpl.
    + now rewrite app_nil_r.
    + rewrite last_command_snoc. auto.
    + rewrite last_command_snoc. auto.
Qed.

Lemma run_mirrored_tracked es kw kw' c :
  mqtt_client (snd kw) = Some c ->
  run es kw = Some kw' ->
  mirrored kw /\ tracked kw -> mirrored kw' /\ tracked kw'.
Proof.
  revert kw. induction es as [|e es IH]; intros kw Hc H [Hm Ht]; simpl in H.
  - inversion H; subst. auto.
  - destruct (step e kw) as [kw1|] eqn:E; [|discriminate].
    apply (IH kw1); auto.
    + rewrite (step_client _ _ _ E). exact Hc.
    + split; [eapply step_mirrored | eapply step_tracked]; eauto.
Qed.

Lemma mirrored_tracked_commanded kw :
  mirrored kw -> tracked kw ->
  SensorState.lamp_state (state (snd kw)) = commanded (snd kw).
Proof.
  unfold mirrored, tracked, commanded.
  destruct (last_command (lamp_commands (broker (snd kw)))) as [s|].
  - intros [[A L]|[A L]] [T [S|S]]; subst s; rewrite A in T;
      try discriminate T; rewrite L; reflexivity.
  - intros [[A L]|[A L]] T; rewrite A in T; try discriminate T. now rewrite L.
Qed.

(** From start-up on, whatever the device does and whatever configurations
    are installed, the lamp field that the status query reports is the state
    of the lamp command given to the broker last, and 0 as long as none was
    given. *)
Theorem status_reports_last_command es w0 c k w :
  mqtt_client w0 = Some c ->
  broker w0 = [] ->
  SensorState.lamp_state (state w0) = 0 ->
  run es (initial_worker, w0) = Some (k, w) ->
  exists items,
    get_status w = (w, Returned (JObj items))
    /\ dict_get items "lamp_state" = JInt (commanded w)
    /\ (commanded w = 0 \/ commanded w = 1).
Proof.
  intros Hc Hb Hl Hrun.
  destruct (run_mirrored_tracked es (initial_worker, w0) (k, w) c Hc Hrun)
    as [Hm Ht].
  { split.
    - right. simpl. auto.
    - unfold tracked. simpl. now rewrite Hb. }
  pose proof (mirrored_tracked_commanded _ Hm Ht) as E. simpl in E.
  eexists. split; [reflexivity|]. split.
  - simpl. now rewrite E.
  - rewrite <- E. destruct Hm as [[_ L]|[_ L]]; simpl in L; auto.
Qed.

Lemma status_reports_last_command_witness :
  exists items,
    get_status
      (snd (frame_iteration Automation.default Topics.default
              (brightness_of 51%float) (presence_of []) "t1"
              (initial_locals, started))) =
    (snd (frame_iteration Automation.default Topics.default
            (brightness_of 51%float) (presence_of []) "t1"
            (initial_locals, started)),
     Returned (JObj items))
    /\ dict_get items "lamp_state" =
       JInt (commanded
               (snd (frame_iteration Automation.default Topics.default
                       (brightness_of 51%float) (presence_of []) "t1"
                       (initial_locals, started))))
    /\ (commanded
          (snd (frame_iteration Automation.default Topics.default
                  (brightness_of 51%float) (presence_of []) "t1"
                  (initial_locals, started))) = 0
        \/ commanded
             (snd (frame_iteration Automation.default Topics.default
                     (brightness_of 51%float) (presence_of []) "t1"
                     (initial_locals, started))) = 1).
Proof.
  exact (status_reports_last_command
           [Camera Opened; Camera (Frame 51%float [] "t1")]
           started (Client "iotzy_backend")
           (mkWorker (Capturing 0 Automation.default Topics.default)
              (advance Automation.default (brightness_of 51%float)
                 (presence_of []) initial_locals))
           _ eq_refl eq_refl eq_refl eq_refl).
Defined.

(** ** Device faults *)

(** Opening the device, failing to open it, finding the capture closed and
    failing to read change nothing: no field of the State Store, no message,
    and none of the worker's three locals, so what was published last is
    still remembered when frames come again. *)
Theorem faults_change_nothing es kw kw' :
  forallb is_fault es = true ->
  run es kw = Some kw' ->
  snd kw' = snd kw /\ locals (fst kw') = locals (fst kw).
Proof.
  revert kw. induction es as [|e es IH]; intros kw Hall H; simpl in *.
  - inversion H; subst. auto.
  - apply andb_true_iff in Hall. destruct Hall as [He Hes].
    destruct (step e kw) as [kw1|] eqn:E; [|discriminate].
    destruct (IH _ Hes H) as [W L]. rewrite W, L.
    destruct kw as [k w], e as [ev|c0]; simpl in *; [|discriminate He].
    unfold camera_worker_step in E.
    destruct ev; try discriminate He;
      destruct (phase k); inversion E; subst; simpl; auto.
Qed.

Lemma faults_change_nothing_witness :
  snd (mkWorker Acquiring initial_locals, started) = snd (initial_worker, started)
  /\ locals (fst (mkWorker Acquiring initial_locals, started)) =
     locals (fst (initial_worker, started)).
Proof.
  exact (faults_change_nothing
           [Camera OpenFailed; Camera Opened; Camera ReadFailed;
            Camera Opened; Camera CaptureClosed]
           (initial_worker, started) _ eq_refl eq_refl).
Defined.

(** However often the device fails to open, the worker is still there for
    the attempt that succeeds, and enters the session with the configuration
    of that moment and everything else as it was. *)
Theorem open_is_retried (n : nat) (k : Worker) (w : World) :
  phase k = Acquiring ->
  run (repeat (Camera OpenFailed) n ++ [Camera Opened]) (k, w) =
  Some (mkWorker
          (Capturing (BackendConfig.camera_index (config w))
             (BackendConfig.automation (config w))
             (BackendConfig.topics (config w)))
          (locals k), w).
Proof.
  intros Hph. induction n as [|n IH]; simpl.
  - unfold camera_worker_step. now rewrite Hph.
  - unfold camera_worker_step at 1. rewrite Hph. exact IH.
Qed.

Lemma open_is_retried_witness :
  run (repeat (Camera OpenFailed) 2 ++ [Camera Opened]) (initial_worker, started) =
  Some (mkWorker (Capturing 0 Automation.default Topics.default) initial_locals,
        started).
Proof. exact (open_is_retried 2 initial_worker started eq_refl). Defined.

(** ** Samples that cannot actuate *)

Lemma idle_sample a t b p now last :
  idle a (b, p, now) = true ->
  lamp_call a t b last = [] /\ next_action a b last = last
  /\ forall lamp, lamp_after a b last lamp = lamp.
Proof.
  unfold idle, in_band, lamp_call, next_action, lamp_after. simpl.
  destruct (Automation.lamp_enabled a); simpl; auto.
  intros H. apply andb_true_iff in H. destruct H as [H1 H2].
  apply negb_true_iff in H1, H2. rewrite H1, H2. simpl. auto.
Qed.

Lemma idle_run a t samples l w :
  forallb (idle a) samples = true ->
  count_commands (List.concat (trace_frames a t samples (l, w))) = 0%nat
  /\ last_lamp_action (fst (run_frames a t samples (l, w))) = last_lamp_action l
  /\ SensorState.lamp_state (state (snd (run_frames a t samples (l, w)))) =
     SensorState.lamp_state (state w).
Proof.
  revert l w. induction samples as [|[[b p] now] rest IH]; intros l w H.
  - simpl. auto.
  - simpl in H. apply andb_true_iff in H. destruct H as [Hs Hrest].
    destruct (idle_sample a t b p now (last_lamp_action l) Hs) as (E & N & L).
    rewrite trace_frames_cons, run_frames_cons, frame_iteration_sent.
    cbn [List.concat]. rewrite count_commands_app.
    assert (P : count_commands
                  match mqtt_client w with
                  | Some _ => handed (mqtt_client w) a t b p l
                  | None => []
                  end = 0%nat).
    { destruct (mqtt_client w) as [c|]; [|reflexivity].
      unfold count_commands.
      rewrite (lamp_filter_of_handed is_lamp_command) by auto.
      rewrite E. now destruct (completes _ _ _ _ _ _). }
    rewrite P. rewrite frame_iteration_general.
    destruct (completes (mqtt_client w) a t b p l) eqn:Ec.
    + match goal with
      | |- context [trace_frames a t rest (?l', ?w')] =>
          destruct (IH l' w' Hrest) as (C & A & S)
      end.
      rewrite C, A, S. simpl. rewrite left_state_lamp, Ec, N, L. auto.
    + simpl. rewrite left_state_lamp, Ec. auto.
Qed.

(** With the lamp automation switched off in the snapshot, a session never
    commands the lamp, however dark or bright the frames are, and leaves the
    last action and the lamp field as they were. *)
Theorem disabled_automation_is_silent a t samples l w :
  Automation.lamp_enabled a = false ->
  count_commands (List.concat (trace_frames a t samples (l, w))) = 0%nat
  /\ last_lamp_action (fst (run_frames a t samples (l, w))) = last_lamp_action l
  /\ SensorState.lamp_state (state (snd (run_frames a t samples (l, w)))) =
     SensorState.lamp_state (state w).
Proof.
  intros H. apply idle_run. apply forallb_forall. intros s _.
  unfold idle. now rewrite H.
Qed.

Lemma disabled_automation_is_silent_witness :
  count_commands
    (List.concat
       (trace_frames (Automation.mk false 0.35%float 0.5%float) Topics.default
          [(0.1%float, true, "t1"); (0.9%float, false, "t2")]
          (initial_locals, started))) = 0%nat
  /\ last_lamp_action
       (fst (run_frames (Automation.mk false 0.35%float 0.5%float)
               Topics.default
               [(0.1%float, true, "t1"); (0.9%float, false, "t2")]
               (initial_locals, started))) = last_lamp_action initial_locals
  /\ SensorState.lamp_state
       (state
          (snd (run_frames (Automation.mk false 0.35%float 0.5%float)
                  Topics.default
                  [(0.1%float, true, "t1"); (0.9%float, false, "t2")]
                  (initial_locals, started)))) =
     SensorState.lamp_state (state started).
Proof.
  exact (disabled_automation_is_silent (Automation.mk false 0.35%float 0.5%float)
           Topics.default [(0.1%float, true, "t1"); (0.9%float, false, "t2")]
           initial_locals started eq_refl).
Defined.

(** Samples that are neither below the on threshold nor above the off
    threshold (the band between the two, the thresholds themselves, and a
    brightness that is not a number) never command the lamp, whether the last
    action was on or off. *)
Theorem band_is_dead a t samples l w :
  forallb (in_band a) samples = true ->
  count_commands (List.concat (trace_frames a t samples (l, w))) = 0%nat
  /\ last_lamp_action (fst (run_frames a t samples (l, w))) = last_lamp_action l
  /\ SensorState.lamp_state (state (snd (run_frames a t samples (l, w)))) =
     SensorState.lamp_state (state w).
Proof.
  intros H. apply idle_run. apply forallb_forall. intros s Hs.
  unfold idle. rewrite forallb_forall in H. rewrite (H s Hs).
  apply orb_true_r.
Qed.

Lemma band_is_dead_witness :
  count_commands
    (List.concat
       (trace_frames Automation.default Topics.default
          [(0.35%float, true, "t1"); (0.42%float, false, "t2");
           (0.5%float, false, "t3"); (nan, false, "t4")]
          (mkLocals None None "on", started))) = 0%nat
  /\ last_lamp_action
       (fst (run_frames Automation.default Topics.default
               [(0.35%float, true, "t1"); (0.42%float, false, "t2");
                (0.5%float, false, "t3"); (nan, false, "t4")]
               (mkLocals None None "on", started))) = "on"
  /\ SensorState.lamp_state
       (state
          (snd (run_frames Automation.default Topics.default
                  [(0.35%float, true, "t1"); (0.42%float, false, "t2");
                   (0.5%float, false, "t3"); (nan, false, "t4")]
                  (mkLocals None None "on", started)))) =
     SensorState.lamp_state (state started).
Proof.
  exact (band_is_dead Automation.default Topics.default
           [(0.35%float, true, "t1"); (0.42%float, false, "t2");
            (0.5%float, false, "t3"); (nan, false, "t4")]
           (mkLocals None None "on") started eq_refl).
Defined.

(** ** Where the policy ends up *)

Lemma run_app es1 es2 kw kw1 :
  run es1 kw = Some kw1 -> run (es1 ++ es2) kw = run es2 kw1.
Proof.
  revert kw. induction es1 as [|e es IH]; intros kw H; simpl in *.
  - now inversion H.
  - destruct (step e kw) as [kw'|]; [|discriminate]. now apply IH.
Qed.

Lemma dark_sample_turns_on a b last :
  Automation.lamp_enabled a = true ->
  (Automation.lamp_on_threshold a <=? Automation.lamp_off_threshold a)%float
  = true ->
  (b <? Automation.lamp_on_threshold a)%float = true ->
  next_action a b last = "on".
Proof.
  intros He Hle Hlt. unfold next_action.
  rewrite He, Hlt, (below_on_not_above_off _ _ _ Hlt Hle). simpl.
  destruct (String.eqb_spec last "on"); simpl; auto.
Qed.

Lemma bright_sample_turns_off a b last :
  Automation.lamp_enabled a = true ->
  (Automation.lamp_on_threshold a <=? Automation.lamp_off_threshold a)%float
  = true ->
  (Automation.lamp_off_threshold a <? b)%float = true ->
  next_action a b last = "off".
Proof.
  intros He Hle Hgt. unfold next_action. rewrite He, Hgt.
  destruct (b <? Automation.lamp_on_threshold a)%float eqn:Hlt.
  - rewrite (below_on_not_above_off _ _ _ Hlt Hle) in Hgt. discriminate.
  - simpl. destruct (String.eqb_spec last "off"); simpl; auto.
Qed.

(** When the on threshold does not exceed the off threshold, automation is
    enabled in the snapshot and the client takes the topics of the snapshot,
    the policy ends where the frame says, whatever happened before: after a frame below the on threshold the lamp field is 1
    and the last command in the log is ON; after a frame above the off
    threshold the lamp field is 0 and no ON command is the last one. *)
Theorem policy_follows_the_frame
  es w0 c k w ci a t gray_mean rects now :
  mqtt_client w0 = Some c ->
  broker w0 = [] ->
  SensorState.lamp_state (state w0) = 0 ->
  run es (initial_worker, w0) = Some (k, w) ->
  phase k = Capturing ci a t ->
  publish_topics_valid t = true ->
  Automation.lamp_enabled a = true ->
  (Automation.lamp_on_threshold a <=? Automation.lamp_off_threshold a)%float
  = true ->
  exists k' w',
    camera_worker_step (Frame gray_mean rects now) k w = Some (k', w')
    /\ ((brightness_of gray_mean <? Automation.lamp_on_threshold a)%float = true ->
        SensorState.lamp_state (state w') = 1 /\ commanded w' = 1)
    /\ ((Automation.lamp_off_threshold a <? brightness_of gray_mean)%float = true ->
        SensorState.lamp_state (state w') = 0 /\ commanded w' = 0).
Proof.
  intros Hc Hb Hl Hrun Hph V He Hle.
  destruct (camera_worker_step (Frame gray_mean rects now) k w)
    as [[k' w']|] eqn:Es.
  2:{ rewrite (camera_worker_step_frame _ _ _ _ _ _ _ _ Hph) in Es.
      discriminate. }
  exists k', w'. split; [reflexivity|].
  assert (Hrun' : run (es ++ [Camera (Frame gray_mean rects now)])
                    (initial_worker, w0) = Some (k', w')).
  { rewrite (run_app _ _ _ _ Hrun). simpl. now rewrite Es. }
  destruct (run_mirrored_tracked _ (initial_worker, w0) (k', w') c Hc Hrun')
    as [Hm Ht].
  { split.
    - right. simpl. auto.
    - unfold tracked. simpl. now rewrite Hb. }
  pose proof (mirrored_tracked_commanded _ Hm Ht) as E. simpl in E.
  assert (Hact : last_lamp_action (locals k') =
                 next_action a (brightness_of gray_mean)
                   (last_lamp_action (locals k))).
  { rewrite (camera_worker_step_frame _ _ _ _ _ _ _ _ Hph) in Es.
    inversion Es; subst. simpl.
    rewrite frame_iteration_view; [reflexivity|].
    now apply valid_topics_accepted. }
  split; intros Hcmp.
  - rewrite (dark_sample_turns_on _ _ _ He Hle Hcmp) in Hact.
    rewrite <- E. destruct Hm as [[_ L]|[A _]]; simpl in *; auto.
    rewrite Hact in A. discriminate.
  - rewrite (bright_sample_turns_off _ _ _ He Hle Hcmp) in Hact.
    rewrite <- E. destruct Hm as [[A _]|[_ L]]; simpl in *; auto.
    rewrite Hact in A. discriminate.
Qed.

Lemma policy_follows_the_frame_witness :
  exists k' w',
    camera_worker_step (Frame 51%float [] "t2")
      (mkWorker (Capturing 0 Automation.default Topics.default) initial_locals)
      started = Some (k', w')
    /\ ((brightness_of 51%float
         <? Automation.lamp_on_threshold Automation.default)%float = true ->
        SensorState.lamp_state (state w') = 1 /\ commanded w' = 1)
    /\ ((Automation.lamp_off_threshold Automation.default
         <? brightness_of 51%float)%float = true ->
        SensorState.lamp_state (state w') = 0 /\ commanded w' = 0).
Proof.
  exact (policy_follows_the_frame [Camera Opened] started (Client "iotzy_backend")
           (mkWorker (Capturing 0 Automation.default Topics.default)
              initial_locals)
           started 0 Automation.default Topics.default 51%float [] "t2"
           eq_refl eq_refl eq_refl eq_refl eq_refl eq_refl eq_refl eq_refl).
Defined.

(** ** Publishing without a client *)

(** An event that falls in a time without a client is lost for good.  The
    iteration hands nothing to the broker, yet it records the brightness as
    published; when a client is there for the next frame of the same
    brightness, no brightness event is sent. *)
Theorem lost_events_are_not_resent
  a t (b : float) p now p' now' l w c :
  mqtt_client w = None ->
  (b =? b)%float = true ->
  let lw1 := frame_iteration a t b p now (l, w) in
  let w1 := with_client c (snd lw1) in
  broker (snd lw1) = broker w
  /\ filter is_brightness_event
       (published w1 (snd (frame_iteration a t b p' now' (fst lw1, w1)))) = [].
Proof.
  intros Hc Hb lw1 w1. unfold lw1, w1.
  rewrite frame_iteration_view by (rewrite Hc; reflexivity). simpl.
  rewrite Hc, app_nil_r. split; [reflexivity|].
  rewrite (frame_iteration_handed _ _ _ _ _ _ _ c) by reflexivity.
  rewrite brightness_events_of_handed. unfold sends_brightness. simpl.
  destruct (differs_float b (last_brightness l)) eqn:E; simpl.
  - now rewrite Hb.
  - now rewrite E.
Qed.

Lemma lost_events_are_not_resent_witness :
  broker
    (snd (frame_iteration Automation.default Topics.default 0.6%float false "t1"
            (initial_locals,
             mkWorld BackendConfig.default SensorState.default None [] None))) =
  []
  /\ filter is_brightness_event
       (published
          (with_client (Client "iotzy_backend")
             (snd (frame_iteration Automation.default Topics.default 0.6%float
                     false "t1"
                     (initial_locals,
                      mkWorld BackendConfig.default SensorState.default None []
                        None))))
          (snd (frame_iteration Automation.default Topics.default 0.6%float
                  false "t2"
                  (fst (frame_iteration Automation.default Topics.default
                          0.6%float false "t1"
                          (initial_locals,
                           mkWorld BackendConfig.default SensorState.default
                             None [] None)),
                   with_client (Client "iotzy_backend")
                     (snd (frame_iteration Automation.default Topics.default
                             0.6%float false "t1"
                             (initial_locals,
                              mkWorld BackendConfig.default SensorState.default
                                None [] None))))))) = [].
Proof.
  exact (lost_events_are_not_resent Automation.default Topics.default 0.6%float
           false "t1" false "t2" initial_locals
           (mkWorld BackendConfig.default SensorState.default None [] None)
           (Client "iotzy_backend") eq_refl eq_refl).
Defined.

(** An iteration gives the client at most three messages and always in the
    same order: the brightness event, the presence event, the lamp command. *)
Theorem iteration_publishes_in_order a t b p now l w c :
  mqtt_client w = Some c ->
  exists bs ps ls,
    published w (snd (frame_iteration a t b p now (l, w))) = (bs ++ ps ++ ls)%list
    /\ (bs = [] \/ bs = [(Topics.brightness t, brightness_payload b)])
    /\ (ps = [] \/ ps = [(Topics.presence t, presence_payload p)])
    /\ (ls = [] \/ ls = [(Topics.lamp_control t, lamp_payload 1)]
        \/ ls = [(Topics.lamp_control t, lamp_payload 0)]).
Proof.
  intros Hc. rewrite (frame_iteration_handed _ _ _ _ _ _ _ _ Hc).
  unfold handed. eexists _, _, _. split; [reflexivity|].
  split; [|split].
  - destruct (sends_brightness (Some c) t b l); auto.
  - destruct (sends_presence (Some c) t b p l); auto.
  - destruct (completes (Some c) a t b p l); [|auto]. apply lamp_call_cases.
Qed.

Lemma iteration_publishes_in_order_witness :
  exists bs ps ls,
    published started
      (snd (frame_iteration Automation.default Topics.default 0.2%float true
              "t1" (initial_locals, started))) = (bs ++ ps ++ ls)%list
    /\ (bs = [] \/ bs = [(Topics.brightness Topics.default,
                          brightness_payload 0.2%float)])
    /\ (ps = [] \/ ps = [(Topics.presence Topics.default,
                          presence_payload true)])
    /\ (ls = [] \/ ls = [(Topics.lamp_control Topics.default, lamp_payload 1)]
        \/ ls = [(Topics.lamp_control Topics.default, lamp_payload 0)]).
Proof.
  exact (iteration_publishes_in_order Automation.default Topics.default
           0.2%float true "t1" initial_locals started (Client "iotzy_backend")
           eq_refl).
Defined.

(** ** More about the inbound handler *)

Section HandlerAlgebra.

Variable float_of_str : string -> option float.

(** What the handler does with a message depends on the configured topic
    only: it leaves the world alone (returning or raising), or it stores one
    float that the message determines. *)
Lemma handler_cases msg w :
  (exists r, forall w', config w' = config w ->
               mqtt_on_message float_of_str msg w' = (w', r))
  \/ (exists f, forall w', config w' = config w ->
                  mqtt_on_message float_of_str msg w' =
                  (set_temperature f w', Returned tt)).
Proof.
  unfold mqtt_on_message.
  destruct (negb (String.eqb (topic msg)
                    (Topics.temperature (BackendConfig.topics (config w)))))
    eqn:Et.
  { left. eexists. intros w' Hw. rewrite Hw, Et. reflexivity. }
  destruct (msg_payload msg) as [| |v].
  1,2: left; eexists; intros w' Hw; rewrite Hw, Et; reflexivity.
  destruct v as [ |bv|z|f|s|items|d];
    try (left; eexists; intros w' Hw; rewrite Hw, Et; reflexivity).
  destruct (py_or (dict_get d "value")
              (py_or (dict_get d "temperature") (dict_get d "temp")))
    as [ |bv|z|f|s|items|d'] eqn:Ev;
    try (left; eexists; intros w' Hw; rewrite Hw, Et; reflexivity).
  - right. eexists. intros w' Hw. rewrite Hw, Et. reflexivity.
  - destruct (float_of_int z) as [f|e] eqn:Ef.
    + right. exists f. intros w' Hw. rewrite Hw, Et. simpl. now rewrite Ef.
    + left. eexists. intros w' Hw. rewrite Hw, Et. simpl. now rewrite Ef.
  - right. eexists. intros w' Hw. rewrite Hw, Et. reflexivity.
  - destruct (float_of_str s) as [f|] eqn:Ef.
    + right. exists f. intros w' Hw. rewrite Hw, Et. simpl. now rewrite Ef.
    + left. eexists. intros w' Hw. rewrite Hw, Et. simpl. now rewrite Ef.
Qed.

End HandlerAlgebra.

(** The handler writes the temperature and nothing else: the configuration,
    the client, the broker's log, the file and the other four fields of the
    State Store are as before, whatever the message.  When it raises, and
    when the message is on another topic, not even the temperature
    changes. *)
Theorem handler_writes_temperature_only
  (float_of_str : string -> option float) (msg : MQTTMessage) (w : World) :
  let w' := fst (mqtt_on_message float_of_str msg w) in
  config w' = config w
  /\ mqtt_client w' = mqtt_client w
  /\ broker w' = broker w
  /\ config_file w' = config_file w
  /\ SensorState.presence (state w') = SensorState.presence (state w)
  /\ SensorState.brightness (state w') = SensorState.brightness (state w)
  /\ SensorState.last_seen (state w') = SensorState.last_seen (state w)
  /\ SensorState.lamp_state (state w') = SensorState.lamp_state (state w)
  /\ (forall e, snd (mqtt_on_message float_of_str msg w) = Raised e -> w' = w)
  /\ (topic msg <> Topics.temperature (BackendConfig.topics (config w)) ->
      mqtt_on_message float_of_str msg w = (w, Returned tt)).
Proof.
  intros w'. unfold w'.
  destruct (handler_cases float_of_str msg w) as [[r H]|[f H]];
    rewrite (H w eq_refl); simpl; repeat split; auto; try discriminate.
  - intros Hne. apply String.eqb_neq in Hne.
    pose proof (H w eq_refl) as E. unfold mqtt_on_message in E.
    rewrite Hne in E. simpl in E. now inversion E.
  - intros Hne. apply String.eqb_neq in Hne.
    pose proof (H w eq_refl) as E. unfold mqtt_on_message in E.
    rewrite Hne in E. simpl in E. rewrite E. reflexivity.
Qed.

(** Delivering a message a second time changes nothing more: the world and
    the outcome are those of the first delivery. *)
Theorem handler_is_idempotent
  (float_of_str : string -> option float) (msg : MQTTMessage) (w : World) :
  mqtt_on_message float_of_str msg (fst (mqtt_on_message float_of_str msg w)) =
  mqtt_on_message float_of_str msg w.
Proof.
  destruct (handler_cases float_of_str msg w) as [[r H]|[f H]].
  - rewrite (H w eq_refl). simpl. apply H. reflexivity.
  - rewrite (H w eq_refl). simpl. rewrite (H (set_temperature f w) eq_refl).
    reflexivity.
Qed.

(** The handler and the worker do not disturb each other: a temperature
    message handled before a frame iteration or after it leaves the same
    world, the same locals and the same outcome. *)
Theorem handler_and_iteration_commute
  (float_of_str : string -> option float) (msg : MQTTMessage)
  a t b p now (l : Locals) (w : World) :
  let handled := mqtt_on_message float_of_str msg w in
  let framed := frame_iteration a t b p now (l, w) in
  mqtt_on_message float_of_str msg (snd framed) =
    (snd (frame_iteration a t b p now (l, fst handled)), snd handled)
  /\ fst (frame_iteration a t b p now (l, fst handled)) = fst framed.
Proof.
  intros handled framed. unfold handled, framed.
  assert (Hcfg : config (snd (frame_iteration a t b p now (l, w))) = config w)
    by apply frame_iteration_config.
  destruct (handler_cases float_of_str msg w) as [[r H]|[f H]].
  - rewrite (H w eq_refl), (H _ Hcfg). simpl. auto.
  - rewrite (H w eq_refl), (H _ Hcfg). simpl.
    rewrite !frame_iteration_general. unfold left_state, set_temperature. simpl.
    destruct (reaches_store _ _ _ _ _); auto.
Qed.

(** The three keys are tried in the order [value], [temperature], [temp],
    and the first whose value is true decides alone: the other keys, present
    or not, make no difference. *)
Theorem first_true_key_decides
  (float_of_str : string -> option float) (w : World)
  (d : list (string * json)) :
  (truthy (dict_get d "value") = true ->
   mqtt_on_message float_of_str (temperature_message w (Json (JObj d))) w =
   mqtt_on_message float_of_str
     (temperature_message w (Json (JObj [("value", dict_get d "value")]))) w)
  /\ (truthy (dict_get d "value") = false ->
      truthy (dict_get d "temperature") = true ->
      mqtt_on_message float_of_str (temperature_message w (Json (JObj d))) w =
      mqtt_on_message float_of_str
        (temperature_message w
           (Json (JObj [("temperature", dict_get d "temperature")]))) w)
  /\ (truthy (dict_get d "value") = false ->
      truthy (dict_get d "temperature") = false ->
      mqtt_on_message float_of_str (temperature_message w (Json (JObj d))) w =
      mqtt_on_message float_of_str
        (temperature_message w (Json (JObj [("temp", dict_get d "temp")]))) w).
Proof.
  unfold mqtt_on_message, temperature_message. simpl.
  rewrite String.eqb_refl. simpl. unfold py_or. simpl.
  split; [|split].
  - intros H. now rewrite H.
  - intros H1 H2. now rewrite H1, H2.
  - intros H1 H2. now rewrite H1, H2.
Qed.

(** What [float] makes of values that are true but are not numbers: [true]
    is stored as 1.0, and a non-empty list or object raises [TypeError] and
    stores nothing. *)
Theorem true_values_that_are_not_numbers
  (float_of_str : string -> option float) (w : World)
  (d : list (string * json)) :
  (dict_get d "value" = JBool true ->
   mqtt_on_message float_of_str (temperature_message w (Json (JObj d))) w =
   (set_temperature 1%float w, Returned tt))
  /\ (forall x xs, dict_get d "value" = JArr (x :: xs) ->
      mqtt_on_message float_of_str (temperature_message w (Json (JObj d))) w =
      (w, Raised TypeError))
  /\ (forall kv kvs, dict_get d "value" = JObj (kv :: kvs) ->
      mqtt_on_message float_of_str (temperature_message w (Json (JObj d))) w =
      (w, Raised TypeError)).
Proof.
  unfold mqtt_on_message, temperature_message. simpl.
  rewrite String.eqb_refl. simpl. unfold py_or.
  split; [|split]; intros; match goal with H : dict_get _ _ = _ |- _ =>
    rewrite H end; reflexivity.
Qed.

(** ** Loading the configuration *)

(** What [save_config] writes, [load_config] reads back: the configuration
    saved, field for field. *)
Theorem saved_configuration_loads_back (c : BackendConfig.t) (w : World) :
  load_config (file_of (save_config c w)) = Loaded (loaded_config c).
Proof.
  destruct c as [host port ssl user pass cam [tt tp tb tl] [ae aon aoff]].
  reflexivity.
Qed.

Lemma get_or_absent d key default :
  dict_find d key = None -> get_or d key default = default.
Proof. intros H. unfold get_or. now rewrite H. Qed.

(** A file that is missing and a file whose object names none of the eight
    fields both give the defaults. *)
Theorem absent_keys_take_defaults (data : list (string * json)) :
  (forall key, In key config_fields -> dict_find data key = None) ->
  load_config (Document (JObj data)) = load_config Missing
  /\ load_config Missing = Loaded (loaded_config BackendConfig.default).
Proof.
  intros H. split; [|reflexivity].
  unfold load_config.
  rewrite !get_or_absent by (apply H; unfold config_fields; simpl; auto 10).
  reflexivity.
Qed.

Lemma absent_keys_take_defaults_witness :
  load_config (Document (JObj [("comment", JStr "nothing set")])) =
  load_config Missing
  /\ load_config Missing = Loaded (loaded_config BackendConfig.default).
Proof.
  apply (absent_keys_take_defaults [("comment", JStr "nothing set")]).
  intros key Hin. unfold config_fields in Hin. simpl in Hin.
  repeat (destruct Hin as [Hin|Hin]; [subst key; reflexivity|]).
  contradiction.
Defined.

Lemma dict_find_other k v d key :
  k <> key -> dict_find ((k, v) :: d) key = dict_find d key.
Proof. intros H. simpl. apply String.eqb_neq in H. now rewrite H. Qed.

(** At the top level a key that is not the name of a field is ignored. *)
Theorem unknown_top_level_key_is_ignored
  (k : string) (v : json) (data : list (string * json)) :
  ~ In k config_fields ->
  load_config (Document (JObj ((k, v) :: data))) =
  load_config (Document (JObj data)).
Proof.
  intros H. unfold load_config, get_or.
  rewrite !dict_find_other
    by (intros E; apply H; rewrite E; unfold config_fields; simpl; auto 10).
  reflexivity.
Qed.

Lemma unknown_top_level_key_is_ignored_witness :
  load_config (Document (JObj [("version", JInt 2); ("mqtt_port", JInt 8883)])) =
  load_config (Document (JObj [("mqtt_port", JInt 8883)])).
Proof.
  apply (unknown_top_level_key_is_ignored "version" (JInt 2)
           [("mqtt_port", JInt 8883)]).
  unfold config_fields. simpl. intros H.
  repeat (destruct H as [H|H]; [discriminate H|]). exact H.
Defined.

(** Inside the two groups nothing is ignored: a [topics] or [automation]
    entry that is not an object ([null] included), or that names a key which
    is not a field of the group, makes [load_config] raise [TypeError]; and a
    document that is not an object raises [AttributeError]. *)
Theorem what_load_config_rejects (data : list (string * json)) :
  (forall v, dict_find data "topics" = Some v ->
             (forall d, v = JObj d -> only_fields topic_fields d = false) ->
             load_config (Document (JObj data)) = LoadRaised Load.TypeError)
  /\ (forall v t, topics_kwargs (get_or data "topics" (JObj [])) = Loaded t ->
             dict_find data "automation" = Some v ->
             (forall d, v = JObj d -> only_fields automation_fields d = false) ->
             load_config (Document (JObj data)) = LoadRaised Load.TypeError)
  /\ (forall v, (forall d, v <> JObj d) ->
             load_config (Document v) = LoadRaised Load.AttributeError).
Proof.
  split; [|split].
  - intros v Hf Hv. unfold load_config, get_or. rewrite Hf.
    destruct v; try reflexivity. simpl. now rewrite (Hv _ eq_refl).
  - intros v t Ht Hf Hv. unfold load_config. rewrite Ht.
    unfold get_or at 1. rewrite Hf.
    destruct v; try reflexivity. simpl. now rewrite (Hv _ eq_refl).
  - intros v Hv. destruct v; try reflexivity. exfalso. now apply (Hv items).
Qed.

Lemma what_load_config_rejects_witness :
  load_config
    (Document (JObj [("topics", JObj [("temperatur", JStr "home/t")])])) =
  LoadRaised Load.TypeError.
Proof.
  apply (proj1 (what_load_config_rejects
                  [("topics", JObj [("temperatur", JStr "home/t")])])
           (JObj [("temperatur", JStr "home/t")]) eq_refl).
  intros d E. inversion E; subst. reflexivity.
Defined.

(** ** The patch of lines 213-228 *)

Lemma if_given_twice {A : Type} (later earlier : option A) (x : A) :
  if_given later (if_given earlier x) = if_given (or_else later earlier) x.
Proof. now destruct later, earlier. Qed.

(** Patches compose: applying [p] and then [q] is applying the one patch
    that takes each field from [q] where [q] names it and from [p] otherwise.
    So the patch that names nothing changes nothing, and a patch applied
    twice is the patch applied once. *)
Theorem patches_compose (p q : ConfigPayload.t) (u : BackendConfig.t) :
  apply_patch q (apply_patch p u) = apply_patch (patch_then p q) u
  /\ apply_patch empty_patch u = u
  /\ apply_patch p (apply_patch p u) = apply_patch p u.
Proof.
  split; [|split].
  - rewrite !apply_patch_fields. simpl. now rewrite !if_given_twice.
  - now destruct u.
  - rewrite !apply_patch_fields. simpl. rewrite !if_given_twice.
    destruct p as [a b c d e f g h]; simpl.
    now destruct a, b, c, d, e, f, g, h.
Qed.

(** ** The lock *)

Lemma holders_replace_nth i t t' ts :
  nth_error ts i = Some t ->
  (holders (replace_nth i t' ts) + (if holding t then 1 else 0) =
   holders ts + (if holding t' then 1 else 0))%nat.
Proof.
  revert i. induction ts as [|x ts IH]; intros i H.
  - destruct i; discriminate.
  - destruct i as [|i]; simpl in *.
    + inversion H; subst. unfold holders. simpl.
      destruct (holding t), (holding t'); simpl; lia.
    + specialize (IH i H). unfold holders in *. simpl.
      destruct (holding x); simpl; lia.
Qed.

Lemma holder_counts i t ts :
  nth_error ts i = Some t -> holding t = true -> (1 <= holders ts)%nat.
Proof.
  revert i. induction ts as [|x ts IH]; intros i H Ht.
  - destruct i; discriminate.
  - destruct i as [|i]; simpl in *.
    + inversion H; subst. unfold holders. simpl. rewrite Ht. simpl. lia.
    + specialize (IH i H Ht). unfold holders in *. simpl.
      destruct (holding x); simpl; lia.
Qed.

Lemma boot_orderly w requests : orderly w requests (boot w requests).
Proof.
  unfold orderly, boot. simpl. split; [reflexivity|]. split.
  - induction requests as [|r rs IH]; simpl; constructor; auto.
    destruct r; simpl; left; reflexivity.
  - induction requests as [|r rs IH]; simpl; auto.
Qed.

Lemma sys_step_orderly w0 requests i s :
  orderly w0 requests s -> orderly w0 requests (sys_step i s).
Proof.
  intros (Hw & Hts & Hh). unfold sys_step.
  destruct (nth_error (threads s) i) as [t|] eqn:Et; [|repeat split; auto].
  destruct (Forall2_nth_error _ _ _ _ _ Hts Et) as [r [Er Hr]].
  pose proof (holders_replace_nth i t) as Hrep.
  pose proof (holder_counts i t (threads s) Et) as Hcnt.
  assert (Hput : forall t', request_pc (config w0) r t' ->
                 Forall2 (request_pc (config w0)) requests
                   (replace_nth i t' (threads s))).
  { intros t' Ht'. apply Forall2_replace_nth; auto.
    intros x Ex. rewrite Er in Ex. inversion Ex; subst. exact Ht'. }
  destruct s as [w lk ts]. simpl in *. subst w.
  destruct r as [|p]; simpl in Hr.
  - destruct Hr as [E|[E|[E|[E|E]]]]; subst t; unfold thread_step; simpl;
      try destruct lk; simpl;
      (split; [reflexivity|]); simpl;
      (split;
       [apply Hput; simpl; unfold reader_pc; simpl; auto 10
       |match goal with
        | |- holders (replace_nth _ ?t' _) = _ =>
            specialize (Hrep t' ts Et); simpl in Hrep;
            try specialize (Hcnt eq_refl); lia
        end]).
  - destruct Hr as [E|[E|E]]; subst t; unfold thread_step; simpl;
      try destruct lk; simpl;
      (split; [reflexivity|]); simpl;
      (split;
       [apply Hput; simpl; unfold writer_pc; simpl; auto 10
       |match goal with
        | |- holders (replace_nth _ ?t' _) = _ =>
            specialize (Hrep t' ts Et); simpl in Hrep;
            try specialize (Hcnt eq_refl); lia
        end]).
Qed.

Lemma interleave_orderly w0 requests choices s :
  orderly w0 requests s -> orderly w0 requests (interleave choices s).
Proof.
  revert s. induction choices as [|i rest IH]; intros s H; simpl; auto.
  apply IH, sys_step_orderly, H.
Qed.

(** In every interleaving of requests at most one thread is inside a
    [with config_lock] block, and the lock is taken exactly when one is. *)
Theorem one_holder_at_a_time
  (w0 : World) (requests : list Request) (choices : list nat) :
  let s := interleave choices (boot w0 requests) in
  (holders (threads s) <= 1)%nat
  /\ (locked s = true <-> holders (threads s) = 1%nat).
Proof.
  intros s.
  destruct (interleave_orderly w0 requests choices _ (boot_orderly w0 requests))
    as (_ & _ & Hh).
  fold s in Hh. rewrite Hh. destruct (locked s); split; try lia;
    split; intros; auto; discriminate.
Qed.

(** No interleaving of requests changes the process: the configuration, the
    State Store, the broker's log and the configuration file stay as they
    were; and every [update_config] that has finished raised
    [UnboundLocalError]. *)
Theorem requests_change_nothing
  (w0 : World) (requests : list Request) (choices : list nat) :
  let s := interleave choices (boot w0 requests) in
  world s = w0
  /\ forall i p t r,
       nth_error requests i = Some (UpdateConfig p) ->
       nth_error (threads s) i = Some t ->
       result t = Some r ->
       r = Raised UnboundLocalError.
Proof.
  intros s.
  destruct (interleave_orderly w0 requests choices _ (boot_orderly w0 requests))
    as (Hw & Hts & _).
  fold s in Hw, Hts. split; [exact Hw|].
  intros i p t r Hreq Ht Hres.
  destruct (Forall2_nth_error _ _ _ _ _ Hts Ht) as [x [Ex Hx]].
  rewrite Hreq in Ex. inversion Ex; subst x. simpl in Hx.
  destruct Hx as [E|[E|E]]; subst t; simpl in Hres; try discriminate.
  now inversion Hres.
Qed.

(** ** Requests served one after another *)

Lemma nth_error_middle {A : Type} (xs : list A) y ys :
  nth_error (xs ++ y :: ys) (List.length xs) = Some y.
Proof. induction xs as [|x xs IH]; simpl; auto. Qed.

Lemma replace_nth_middle {A : Type} (xs : list A) y y' ys :
  replace_nth (List.length xs) y' (xs ++ y :: ys) = (xs ++ y' :: ys)%list.
Proof. induction xs as [|x xs IH]; simpl; auto. now rewrite IH. Qed.

Lemma sys_step_middle w lk pre t post :
  sys_step (List.length pre) (mkSystem w lk (pre ++ t :: post)) =
  let '(t', l', w') := thread_step t lk w in
  mkSystem w' l' (pre ++ t' :: post).
Proof.
  unfold sys_step. simpl. rewrite nth_error_middle.
  destruct (thread_step t lk w) as [[t' l'] w'].
  now rewrite replace_nth_middle.
Qed.

Lemma interleave_app xs ys s :
  interleave (xs ++ ys) s = interleave ys (interleave xs s).
Proof. revert s. induction xs as [|x xs IH]; intros s; simpl; auto. Qed.

(** Four turns serve a request that finds the lock free. *)
Lemma serve_one w pre r post :
  interleave (repeat (List.length pre) 4)
    (mkSystem w false (pre ++ spawn r :: post)) =
  mkSystem w false (pre ++ served (config w) r :: post).
Proof.
  destruct r as [|p]; simpl; repeat (rewrite sys_step_middle; simpl);
    reflexivity.
Qed.

Lemma serve_all w requests pre :
  interleave (serial (List.length pre) (List.length requests))
    (mkSystem w false (pre ++ map spawn requests)) =
  mkSystem w false (pre ++ map (served (config w)) requests).
Proof.
  revert pre. induction requests as [|r rs IH]; intros pre.
  - reflexivity.
  - cbn [List.length map serial].
    rewrite interleave_app, serve_one.
    specialize (IH (pre ++ [served (config w) r])%list).
    rewrite length_app, Nat.add_comm in IH. simpl in IH.
    rewrite <- !app_assoc in IH. simpl in IH. exact IH.
Qed.

(** Served one after another, in the order of arrival, all requests come to
    an end: every [get_config] returns the configuration, every
    [update_config] raises [UnboundLocalError], and the lock is free
    afterwards (the exception of a writer does not keep it), with the process
    as it was. *)
Theorem served_one_after_another (w : World) (requests : list Request) :
  let s := interleave (serial 0 (List.length requests)) (boot w requests) in
  map result (threads s) = map (fun r => Some (answer (config w) r)) requests
  /\ locked s = false
  /\ world s = w.
Proof.
  intros s. unfold s, boot.
  pose proof (serve_all w requests []) as E. simpl in E. rewrite E.
  simpl. split; [|auto].
  rewrite map_map. apply map_ext. now intros [|p].
Qed.

(** ** Instances of the handler's rules *)

Lemma first_true_key_decides_witness :
  mqtt_on_message digits_only
    (temperature_message started
       (Json (JObj [("temp", JFloat 19.5%float); ("value", JFloat 21.5%float)])))
    started =
  mqtt_on_message digits_only
    (temperature_message started (Json (JObj [("value", JFloat 21.5%float)])))
    started.
Proof.
  exact (proj1 (first_true_key_decides digits_only started
                  [("temp", JFloat 19.5%float); ("value", JFloat 21.5%float)])
           eq_refl).
Defined.

Lemma true_values_that_are_not_numbers_witness :
  mqtt_on_message digits_only
    (temperature_message started (Json (JObj [("value", JArr [JInt 21])])))
    started =
  (started, Raised TypeError).
Proof.
  exact (proj1 (proj2 (true_values_that_are_not_numbers digits_only started
                         [("value", JArr [JInt 21])]))
           (JInt 21) [] eq_refl).
Defined.

Lemma requests_change_nothing_witness :
  @Raised json UnboundLocalError = Raised UnboundLocalError.
Proof.
  exact (proj2 (requests_change_nothing started
                  [GetConfig; UpdateConfig automation_only]
                  [0; 1; 0; 1; 0; 1; 1; 0]%nat)
           1%nat automation_only
           (mkThread [] entry false (Some (Raised UnboundLocalError)))
           (Raised UnboundLocalError) eq_refl eq_refl eq_refl).
Defined.

(** ** Thresholds the wrong way round *)

Lemma contested_sample_commands a t b last :
  Automation.lamp_enabled a = true ->
  (b <? Automation.lamp_on_threshold a)%float = true ->
  (Automation.lamp_off_threshold a <? b)%float = true ->
  count_commands (lamp_call a t b last) = 1%nat.
Proof.
  intros He Hlt Hgt. unfold lamp_call. rewrite He, Hlt, Hgt. simpl.
  destruct (String.eqb_spec last "on") as [E|E]; simpl; [|reflexivity].
  subst last. reflexivity.
Qed.

(** A brightness that is below the on threshold and above the off threshold
    at once (which takes thresholds in the wrong order) makes the policy
    command the lamp in every single iteration, when the client takes the
    topics: as many commands as samples. *)
Theorem contested_brightness_commands_every_time
  a t b (ps : list (bool * string)) l w c :
  mqtt_client w = Some c ->
  publish_topics_valid t = true ->
  Automation.lamp_enabled a = true ->
  (b <? Automation.lamp_on_threshold a)%float = true ->
  (Automation.lamp_off_threshold a <? b)%float = true ->
  count_commands
    (List.concat (trace_frames a t (map (fun q => (b, fst q, snd q)) ps) (l, w))) =
  List.length ps.
Proof.
  intros Hc V He Hlt Hgt. rewrite (trace_frames_calls _ _ _ _ _ _ Hc V).
  revert l. induction ps as [|[p now] ps IH]; intros l; simpl.
  - reflexivity.
  - rewrite count_commands_app. unfold count_commands at 1.
    rewrite (lamp_filter_of_calls is_lamp_command) by auto.
    fold (count_commands (lamp_call a t b (last_lamp_action l))).
    now rewrite (contested_sample_commands _ _ _ _ He Hlt Hgt), IH.
Qed.

Lemma contested_brightness_commands_every_time_witness :
  count_commands
    (List.concat
       (trace_frames inverted_automation Topics.default
          (map (fun q => (0.4%float, fst q, snd q))
             [(false, "t1"); (false, "t2"); (true, "t3"); (true, "t4")])
          (initial_locals, started))) = 4%nat.
Proof.
  exact (contested_brightness_commands_every_time inverted_automation
           Topics.default 0.4%float
           [(false, "t1"); (false, "t2"); (true, "t3"); (true, "t4")]
           initial_locals started (Client "iotzy_backend")
           eq_refl eq_refl eq_refl eq_refl eq_refl).
Defined.

(** ** A topic that the client refuses *)

(** With a client in place and a brightness topic that it refuses, the first
    frame of a worker that has published no brightness yet ends the thread:
    [publish] raises [ValueError] at line 165 before anything is sent or
    stored, the locals stay as they were, and no further step is taken. *)
Theorem refused_topic_ends_the_worker k w c ci a t gray_mean rects now :
  mqtt_client w = Some c ->
  phase k = Capturing ci a t ->
  valid_topic (Topics.brightness t) = false ->
  last_brightness (locals k) = None ->
  camera_worker_step (Frame gray_mean rects now) k w =
    Some (mkWorker (Ended ValueError) (locals k), w)
  /\ forall ev,
       camera_worker_step ev (mkWorker (Ended ValueError) (locals k)) w = None.
Proof.
  intros Hc Hph V Hl. split.
  - unfold camera_worker_step. rewrite Hph.
    unfold frame_body, sense, gate_brightness.
    rewrite Hl. simpl.
    now rewrite (publish_refused _ _ _ _ Hc V).
  - intros ev. unfold camera_worker_step. simpl. now destruct ev.
Qed.

Lemma refused_topic_ends_the_worker_witness :
  camera_worker_step (Frame 51%float [] "t1")
    (mkWorker
       (Capturing 0 Automation.default
          (Topics.mk "iotzy/sensor/temperature" "iotzy/sensor/presence"
             "iotzy/sensor/#" "iotzy/device/lamp/control"))
       initial_locals)
    started =
  Some (mkWorker (Ended ValueError) initial_locals, started).
Proof.
  exact (proj1 (refused_topic_ends_the_worker
                  (mkWorker
                     (Capturing 0 Automation.default
                        (Topics.mk "iotzy/sensor/temperature"
                           "iotzy/sensor/presence" "iotzy/sensor/#"
                           "iotzy/device/lamp/control"))
                     initial_locals)
                  started (Client "iotzy_backend") 0 Automation.default _
                  51%float [] "t1" eq_refl eq_refl eq_refl eq_refl)).
Defined.

(** When the client takes the two sensor topics and refuses the lamp topic,
    a dark frame that should switch the lamp on gets as far as line 176 and
    raises there: the sensed fields are stored, but no lamp command is sent,
    the last action is not set and the lamp field stays as it was. *)
Theorem refused_lamp_topic_leaves_the_lamp a t b p now l w c :
  mqtt_client w = Some c ->
  valid_topic (Topics.brightness t) = true ->
  valid_topic (Topics.presence t) = true ->
  valid_topic (Topics.lamp_control t) = false ->
  Automation.lamp_enabled a = true ->
  (b <? Automation.lamp_on_threshold a)%float = true ->
  last_lamp_action l <> "on" ->
  let out := frame_iteration a t b p now (l, w) in
  snd (frame_body a t b p now (l, w)) = Raised ValueError
  /\ filter is_lamp_command (published w (snd out)) = []
  /\ last_lamp_action (fst out) = last_lamp_action l
  /\ state (snd out) =
     SensorState.mk (SensorState.temperature (state w)) p (Some b) (Some now)
       (SensorState.lamp_state (state w)).
Proof.
  intros Hc Vb Vp Vl He Hlt Hne out. unfold out.
  assert (R : reaches_store (mqtt_client w) t b p l = true)
    by (apply accepted_gates_reach_store; rewrite Hc; assumption).
  assert (C : completes (mqtt_client w) a t b p l = false).
  { unfold completes, lamp_call. rewrite R, He, Hlt, (action_neq_true _ _ Hne).
    simpl. rewrite Hc. exact Vl. }
  rewrite frame_body_outcome, C.
  rewrite frame_iteration_sent, frame_iteration_general, Hc. simpl.
  rewrite (lamp_filter_of_handed is_lamp_command) by auto.
  rewrite Hc in C, R. rewrite C.
  unfold left_state. rewrite R, C. auto.
Qed.

Lemma refused_lamp_topic_leaves_the_lamp_witness :
  snd (frame_body Automation.default
         (Topics.mk "iotzy/sensor/temperature" "iotzy/sensor/presence"
            "iotzy/sensor/brightness" EmptyString)
         0.2%float false "t1" (initial_locals, started)) =
  Raised ValueError.
Proof.
  exact (proj1 (refused_lamp_topic_leaves_the_lamp Automation.default
                  (Topics.mk "iotzy/sensor/temperature" "iotzy/sensor/presence"
                     "iotzy/sensor/brightness" EmptyString)
                  0.2%float false "t1" initial_locals started
                  (Client "iotzy_backend")
                  eq_refl eq_refl eq_refl eq_refl eq_refl eq_refl
                  ltac:(discriminate))).
Defined.

(** While there is no client, [publish] returns at line 139 whatever the
    topic is: every iteration runs to its end and the broker gets nothing. *)
Theorem without_client_nothing_raises a t b p now l w :
  mqtt_client w = None ->
  snd (frame_body a t b p now (l, w)) = Returned tt
  /\ broker (snd (frame_iteration a t b p now (l, w))) = broker w.
Proof.
  intros Hc.
  assert (A : accepts (mqtt_client w) t = true) by now rewrite Hc.
  rewrite (frame_body_full _ _ _ _ _ _ _ A), (frame_iteration_view _ _ _ _ _ _ _ A).
  simpl. rewrite Hc. split; [reflexivity | apply app_nil_r].
Qed.

Lemma without_client_nothing_raises_witness :
  snd (frame_body Automation.default (Topics.mk EmptyString "+" "#" EmptyString)
         0.2%float true "t1"
         (initial_locals,
          mkWorld BackendConfig.default SensorState.default None [] None)) =
  Returned tt.
Proof.
  exact (proj1 (without_client_nothing_raises Automation.default
                  (Topics.mk EmptyString "+" "#" EmptyString) 0.2%float true "t1"
                  initial_locals
                  (mkWorld BackendConfig.default SensorState.default None []
                     None)
                  eq_refl)).
Defined.

(** ** Topics that the client takes *)

Lemma camera_step_alive ev k w k' w' :
  step (Camera ev) (k, w) = Some (k', w') ->
  (forall sn, snapshot k = Some sn -> sn = current w) ->
  publish_topics_valid (BackendConfig.topics (config w)) = true ->
  forall e, phase k' <> Ended e.
Proof.
  intros H Hk V e. simpl in H.
  destruct (phase k) as [|ci a t|x] eqn:Hph.
  - unfold camera_worker_step in H. rewrite Hph in H.
    destruct ev; inversion H; subst; simpl; try discriminate.
    now rewrite Hph.
  - destruct ev as [| | | |g r now];
      try (unfold camera_worker_step in H; rewrite Hph in H; inversion H; subst;
           simpl; discriminate).
    rewrite (camera_worker_step_frame _ _ _ _ _ _ _ _ Hph) in H.
    assert (E : (ci, a, t) = current w)
      by (apply Hk; unfold snapshot; now rewrite Hph).
    unfold current in E. inversion E; subst.
    assert (A : accepts (mqtt_client w) (BackendConfig.topics (config w)) = true)
      by now apply valid_topics_accepted.
    rewrite (proj2 (proj2 (proj2 (accepts_completes _ _ _ (brightness_of g)
                                    (presence_of r) (locals k) A)))) in H.
    inversion H; subst. simpl. discriminate.
  - unfold camera_worker_step in H. rewrite Hph in H. destruct ev; discriminate.
Qed.

Lemma camera_run_alive es :
  forallb is_camera es = true ->
  forall k0 w0 k w,
    (forall sn, snapshot k0 = Some sn -> sn = current w0) ->
    publish_topics_valid (BackendConfig.topics (config w0)) = true ->
    (forall e, phase k0 <> Ended e) ->
    run es (k0, w0) = Some (k, w) ->
    forall e, phase k <> Ended e.
Proof.
  induction es as [|e es IH]; intros Hall k0 w0 k w H0 V Hp Hrun; simpl in *.
  - inversion Hrun; subst. exact Hp.
  - apply andb_true_iff in Hall. destruct Hall as [He Hes].
    destruct e as [ev|c]; [|discriminate He].
    destruct (step (Camera ev) (k0, w0)) as [[k1 w1]|] eqn:E; [|discriminate].
    apply (IH Hes k1 w1 k w); auto.
    + eapply camera_step_snapshot; eauto.
    + now rewrite (camera_step_config _ _ _ _ _ E).
    + eapply camera_step_alive; eauto.
Qed.

(** When the three topics of the stored configuration are topics that the
    client takes, no [publish] of the worker ever raises: whatever the device
    does, the thread is at the top of its outer loop or in a capture session,
    never ended. *)
Theorem valid_topics_keep_the_worker es w0 k w :
  forallb is_camera es = true ->
  publish_topics_valid (BackendConfig.topics (config w0)) = true ->
  run es (initial_worker, w0) = Some (k, w) ->
  phase k = Acquiring \/ exists ci a t, phase k = Capturing ci a t.
Proof.
  intros Hall V Hrun.
  pose proof (camera_run_alive es Hall initial_worker w0 k w) as H.
  destruct (phase k) as [|ci a t|x] eqn:Hph; eauto.
  exfalso. apply (H ltac:(intros sn Hsn; discriminate Hsn) V
                    ltac:(intros e; discriminate) Hrun x).
  reflexivity.
Qed.

Lemma valid_topics_keep_the_worker_witness :
  phase
    (mkWorker (Capturing 0 Automation.default Topics.default)
       (advance Automation.default (brightness_of 51%float) (presence_of [])
          initial_locals)) = Acquiring
  \/ exists ci a t,
       phase
         (mkWorker (Capturing 0 Automation.default Topics.default)
            (advance Automation.default (brightness_of 51%float)
               (presence_of []) initial_locals)) = Capturing ci a t.
Proof.
  exact (valid_topics_keep_the_worker
           [Camera Opened; Camera (Frame 51%float [] "t1")] started _ _
           eq_refl eq_refl eq_refl).
Defined.
